(** * sub-bot: the purchase / cancellation / OAuth handlers of [server.js]

    A shallow embedding of the five pieces of [server.js] that do any
    work: the two role functions ([assignPremiumRole],
    [removePremiumRole]) and the three request handlers
    ([/auth/discord/callback], [/webhook/purchase],
    [/webhook/cancellation]).

    The handlers are [async] functions that read and write one shared
    [Map], allocate record objects, mutate one of them through a
    reference, read the clock, write to the console and await calls to
    the chat platform and to the OAuth endpoints.  They are embedded in
    a state-and-exception monad over a [world]; the outcome of every
    awaited external call is given by an oracle ([platform]), so a
    theorem quantified over the oracle covers every behaviour of the
    outside world.  One handler runs from its first statement to its
    response without another handler in between: interleaving at the
    [await] points is not part of this model. *)

From Stdlib Require Import ZArith Floats.PrimFloat Ascii.
From stdpp Require Import base strings gmap list pretty.

Local Set Warnings "-register-all".
Local Open Scope Z_scope.

(** ** JavaScript values *)

Module JS.

(** The values the handlers touch: what [JSON.parse] can produce (a
    request body, a query string parsed by the framework, a token or
    profile payload), [undefined], and [Date] objects.  Numbers are IEEE
    doubles.  An object is its finite map of own properties. *)
Inductive jsval : Type :=
  | VUndef
  | VNull
  | VBool (b : bool)
  | VNum (x : float)
  | VStr (s : string)
  | VDate (ms : Z)
  | VArr (items : list jsval)
  | VObj (props : gmap string jsval).

Abbreviation obj := (gmap string jsval).

Inductive jserror : Type :=
  | TypeError (msg : string)
  | Rejected (reason : string).

(** Completion of an evaluation: a value, or a thrown exception (for an
    awaited promise: fulfilled or rejected). *)
Inductive result (A : Type) : Type :=
  | Ok (a : A)
  | Throw (e : jserror).
Arguments Ok {A} a.
Arguments Throw {A} e.

#[global] Instance result_ret : MRet result := fun A a => Ok a.

#[global] Instance result_bind : MBind result := fun A B k r =>
  match r with
  | Ok a => k a
  | Throw e => Throw e
  end.

(** [ToBoolean]: what [!v] and [v || w] test. *)
Definition truthy (v : jsval) : bool :=
  match v with
  | VUndef | VNull => false
  | VBool b => b
  | VNum x => negb (PrimFloat.is_zero x || PrimFloat.is_nan x)
  | VStr s => negb (String.eqb s "")
  | VDate _ | VArr _ | VObj _ => true
  end.

Definition nullish (v : jsval) : bool :=
  match v with
  | VUndef | VNull => true
  | _ => false
  end.

(** [v.p] for the property names the handlers read ([customFields],
    [discordUserId], [id], [access_token], [username], [code]): none of
    them is an array index, [length], or a property of a built-in
    prototype, so only an object can hold one.  Reading a property of
    [undefined] or [null] throws. *)
Definition get_prop (v : jsval) (p : string) : result jsval :=
  match v with
  | VUndef | VNull =>
      Throw (TypeError ("Cannot read properties of undefined or null, reading " +:+ p))
  | VObj o => Ok (default VUndef (o !! p))
  | VBool _ | VNum _ | VStr _ | VDate _ | VArr _ => Ok VUndef
  end.

(** [v?.p] *)
Definition get_prop_opt (v : jsval) (p : string) : result jsval :=
  if nullish v then Ok VUndef else get_prop v p.

(** [SameValueZero], the key comparison of [Map].  Objects, arrays and
    dates compare by reference.  A key that is an object always comes
    from a request body that was parsed for this request, so it is never
    identical to a key the [Map] already holds: such keys compare
    unequal to everything. *)
Definition same_value_zero (a b : jsval) : bool :=
  match a, b with
  | VUndef, VUndef => true
  | VNull, VNull => true
  | VBool x, VBool y => Bool.eqb x y
  | VNum x, VNum y =>
      PrimFloat.eqb x y || (PrimFloat.is_nan x && PrimFloat.is_nan y)
  | VStr x, VStr y => String.eqb x y
  | _, _ => false
  end.

(** Values that [SameValueZero] compares by content. *)
Definition primitive (v : jsval) : bool :=
  match v with
  | VUndef | VNull | VBool _ | VNum _ | VStr _ => true
  | VDate _ | VArr _ | VObj _ => false
  end.

(** [Map.prototype.set] stores [+0] for a [-0] key. *)
Definition normalize_key (k : jsval) : jsval :=
  match k with
  | VNum x => if PrimFloat.eqb 0%float x then VNum 0%float else k
  | _ => k
  end.

(** The number of an integral clock reading, by binary expansion; every
    step is exact below [2^53], which covers every time value of a
    [Date]. *)
Fixpoint number_of_pos (p : positive) : float :=
  match p with
  | xH => 1%float
  | xO q => PrimFloat.mul 2%float (number_of_pos q)
  | xI q => PrimFloat.add (PrimFloat.mul 2%float (number_of_pos q)) 1%float
  end.

Definition number_of_ms (ms : Z) : float :=
  match ms with
  | Z0 => 0%float
  | Zpos p => number_of_pos p
  | Zneg p => PrimFloat.opp (number_of_pos p)
  end.

(** [Number.prototype.toString] on an integral number below [1e21]: its
    decimal digits. *)
Definition number_toString (ms : Z) : string := pretty ms.

(** A template literal converts [undefined] to the text "undefined". *)
Definition template_of (s : option string) : string :=
  default "undefined" s.

End JS.
Import JS.

(** ** The [Map] and the object heap *)

(** Record objects live in a heap and the [Map] holds references to
    them, as in the source: the cancellation handler obtains a reference
    with [subscriptions.get] and assigns to fields of the object it
    points to, which is what later reads through the [Map] see. *)
Abbreviation loc := nat.

(** A [Map] in insertion order; every key occurs once. *)
Definition js_map := list (jsval * loc).

Fixpoint map_get (k : jsval) (m : js_map) : option loc :=
  match m with
  | [] => None
  | (k', l) :: m' => if same_value_zero k' k then Some l else map_get k m'
  end.

(** [set] on a key that is present replaces the value and keeps the
    entry's position; a new key goes to the end. *)
Fixpoint map_set (k : jsval) (l : loc) (m : js_map) : js_map :=
  match m with
  | [] => [(normalize_key k, l)]
  | (k', l') :: m' =>
      if same_value_zero k' k then (k', l) :: m'
      else (k', l') :: map_set k l m'
  end.

(** ** The outside world *)

(** What the handlers use of the chat platform's objects. *)
Record Guild := { guild_id : string }.
Record GuildMember := { member_id : string; user_tag : string }.
Record Role := { role_id : string }.

(** [process.env]: a variable that is not set reads as [undefined]. *)
Record process_env := {
  DISCORD_GUILD_ID : option string;
  PREMIUM_ROLE_ID : option string;
  DISCORD_CLIENT_ID : option string;
  DISCORD_CLIENT_SECRET : option string;
  DISCORD_REDIRECT_URI : option string;
  WEBSITE_URL : option string
}.

(** What [fetch] resolves to.  The handlers never look at the status:
    only [.json()] is called on it, which may reject. *)
Record fetch_response := {
  response_status : Z;
  response_json : result jsval
}.

(** The oracle: how each awaited call settles while one handler runs,
    and what the clock shows at its successive readings. *)
Record platform := {
  env : process_env;
  guilds_fetch : option string -> result Guild;
  members_fetch : Guild -> jsval -> result GuildMember;
  roles_fetch : Guild -> option string -> result (option Role);
  roles_add : GuildMember -> option Role -> result unit;
  roles_remove : GuildMember -> option Role -> result unit;
  token_request : jsval -> result fetch_response;
  profile_request : jsval -> result fetch_response;
  clock : nat -> Z
}.

(** Ghost record of what a run did, in order: the external calls it
    started and its writes to the [Map] and to stored records. *)
Inductive event : Type :=
  | EvGuildsFetch (id : option string)
  | EvMembersFetch (g : Guild) (user : jsval)
  | EvRolesFetch (g : Guild) (id : option string)
  | EvRolesAdd (m : GuildMember) (r : option Role)
  | EvRolesRemove (m : GuildMember) (r : option Role)
  | EvTokenRequest (code : jsval)
  | EvProfileRequest (token : jsval)
  | EvMapSet (k : jsval) (l : loc)
  | EvFieldSet (l : loc) (field : string) (v : jsval).

(** Console lines, by their fixed text (the values printed after it are
    left out). *)
Inductive log_entry : Type :=
  | LogInfo (msg : string)
  | LogError (msg : string).

Record world := {
  subscriptions : js_map;
  heap : list obj;
  console : list log_entry;
  clock_reads : nat;
  trace : list event
}.

Definition initial_world : world :=
  {| subscriptions := []; heap := []; console := []; clock_reads := 0%nat;
     trace := [] |}.

Definition with_subscriptions (m : js_map) (w : world) : world :=
  {| subscriptions := m; heap := heap w; console := console w;
     clock_reads := clock_reads w; trace := trace w |}.
Definition with_heap (h : list obj) (w : world) : world :=
  {| subscriptions := subscriptions w; heap := h; console := console w;
     clock_reads := clock_reads w; trace := trace w |}.
Definition with_console (c : list log_entry) (w : world) : world :=
  {| subscriptions := subscriptions w; heap := heap w; console := c;
     clock_reads := clock_reads w; trace := trace w |}.
Definition with_clock_reads (n : nat) (w : world) : world :=
  {| subscriptions := subscriptions w; heap := heap w; console := console w;
     clock_reads := n; trace := trace w |}.
Definition with_trace (t : list event) (w : world) : world :=
  {| subscriptions := subscriptions w; heap := heap w; console := console w;
     clock_reads := clock_reads w; trace := t |}.

(** ** The monad of handler code *)

(** A computation runs on a world and ends with a value or a thrown
    exception; what it did to the world before throwing stays done. *)
Definition M (A : Type) : Type := world -> result A * world.

#[global] Instance M_ret : MRet M := fun A a w => (Ok a, w).

#[global] Instance M_bind : MBind M := fun A B k m w =>
  match m w with
  | (Ok a, w') => k a w'
  | (Throw e, w') => (Throw e, w')
  end.

(** [try { m } catch (error) { h error }] *)
Definition try_catch {A} (m : M A) (h : jserror -> M A) : M A := fun w =>
  match m w with
  | (Ok a, w') => (Ok a, w')
  | (Throw e, w') => h e w'
  end.

(** An expression that cannot touch the world. *)
Definition eval {A} (r : result A) : M A := fun w => (r, w).

(** [await] of an external call: the call is made, the oracle says how
    it settles. *)
Definition await {A} (ev : event) (r : result A) : M A := fun w =>
  (r, with_trace (trace w ++ [ev]) w).

Definition console_log (msg : string) : M unit := fun w =>
  (Ok tt, with_console (console w ++ [LogInfo msg]) w).

Definition console_error (msg : string) : M unit := fun w =>
  (Ok tt, with_console (console w ++ [LogError msg]) w).

(** [Date.now()] *)
Definition Date_now (P : platform) : M Z := fun w =>
  (Ok (clock P (clock_reads w)), with_clock_reads (S (clock_reads w)) w).

(** [new Date()] *)
Definition new_Date (P : platform) : M jsval :=
  ms ← Date_now P; mret (VDate ms).

(** An object literal: a new object, at the next free location. *)
Definition new_object (o : obj) : M loc := fun w =>
  (Ok (length (heap w)), with_heap (heap w ++ [o]) w).

(** [subscriptions.get(k)]; [None] is [undefined]. *)
Definition subscriptions_get (k : jsval) : M (option loc) := fun w =>
  (Ok (map_get k (subscriptions w)), w).

(** [subscriptions.set(k, l)] *)
Definition subscriptions_set (k : jsval) (l : loc) : M unit := fun w =>
  (Ok tt,
   with_trace (trace w ++ [EvMapSet k l])
     (with_subscriptions (map_set k l (subscriptions w)) w)).

(** [l.f] on a stored record: [undefined] when it has no such field. *)
Definition field_of (h : list obj) (l : loc) (f : string) : jsval :=
  default VUndef (h !! l ≫= (.!! f)).

Definition read_field (l : loc) (f : string) : M jsval := fun w =>
  (Ok (field_of (heap w) l f), w).

(** [l.f = v] on a stored record. *)
Definition write_field (l : loc) (f : string) (v : jsval) : M unit := fun w =>
  (Ok tt,
   with_trace (trace w ++ [EvFieldSet l f v])
     (with_heap (alter (<[f := v]>) l (heap w)) w)).

(** ** Role Assignment Client *)

(** [assignPremiumRole] (server.js 38-51) *)
Definition assignPremiumRole (P : platform) (discordUserId : jsval) : M bool :=
  try_catch
    (guild ← await (EvGuildsFetch (DISCORD_GUILD_ID (env P)))
               (guilds_fetch P (DISCORD_GUILD_ID (env P)));
     member ← await (EvMembersFetch guild discordUserId)
                (members_fetch P guild discordUserId);
     role ← await (EvRolesFetch guild (PREMIUM_ROLE_ID (env P)))
              (roles_fetch P guild (PREMIUM_ROLE_ID (env P)));
     await (EvRolesAdd member role) (roles_add P member role) ;;
     console_log ("Assigned premium role to " +:+ user_tag member) ;;
     mret true)
    (fun error =>
       console_error "Error assigning role:" ;;
       mret false).

(** [removePremiumRole] (server.js 54-67) *)
Definition removePremiumRole (P : platform) (discordUserId : jsval) : M bool :=
  try_catch
    (guild ← await (EvGuildsFetch (DISCORD_GUILD_ID (env P)))
               (guilds_fetch P (DISCORD_GUILD_ID (env P)));
     member ← await (EvMembersFetch guild discordUserId)
                (members_fetch P guild discordUserId);
     role ← await (EvRolesFetch guild (PREMIUM_ROLE_ID (env P)))
              (roles_fetch P guild (PREMIUM_ROLE_ID (env P)));
     await (EvRolesRemove member role) (roles_remove P member role) ;;
     console_log ("Removed premium role from " +:+ user_tag member) ;;
     mret true)
    (fun error =>
       console_error "Error removing role:" ;;
       mret false).

(** ** The request handlers *)

(** What a handler sends: [res.status(s).json(b)] ([res.json(b)] sends
    status 200) or [res.redirect(url)] (status 302). *)
Inductive response : Type :=
  | JsonResponse (status : Z) (body : jsval)
  | RedirectResponse (status : Z) (location : string).

Definition res_status_json (status : Z) (body : obj) : M response :=
  mret (JsonResponse status (VObj body)).

Definition res_json (body : obj) : M response :=
  mret (JsonResponse 200 (VObj body)).

Definition res_redirect (url : string) : M response :=
  mret (RedirectResponse 302 url).

(** [GET /auth/discord/callback] (server.js 70-119).  [query] is
    [req.query], which the framework always provides as an object;
    [state] is read and not used. *)
Definition auth_discord_callback (P : platform) (query : obj) : M response :=
  let code := default VUndef (query !! "code") in
  if negb (truthy code) then
    res_status_json 400 {[ "error" := VStr "No code provided" ]}
  else
    try_catch
      (tokenResponse ← await (EvTokenRequest code) (token_request P code);
       tokenData ← eval (response_json tokenResponse);
       access_token ← eval (get_prop tokenData "access_token");
       userResponse ← await (EvProfileRequest access_token)
                        (profile_request P access_token);
       userData ← eval (response_json userResponse);
       now ← Date_now P;
       let sessionId := number_toString now in
       discordId ← eval (get_prop userData "id");
       username ← eval (get_prop userData "username");
       timestamp ← Date_now P;
       record ← new_object {[ "discordId" := discordId;
                              "username" := username;
                              "timestamp" := VNum (number_of_ms timestamp) ]};
       subscriptions_set (VStr sessionId) record ;;
       res_redirect (template_of (WEBSITE_URL (env P))
                       +:+ "/checkout?session=" +:+ sessionId))
      (fun error =>
         console_error "OAuth error:" ;;
         res_status_json 500 {[ "error" := VStr "Authentication failed" ]}).

(** [order.customFields?.discordUserId] (server.js 131, left of [||]) *)
Definition custom_field_identity (order : jsval) : result jsval :=
  customFields ← get_prop order "customFields";
  get_prop_opt customFields "discordUserId".

(** [order.customFields?.discordUserId || order.discordUserId]
    (server.js 131) *)
Definition order_discordUserId (order : jsval) : result jsval :=
  nested ← custom_field_identity order;
  if truthy nested then mret nested else get_prop order "discordUserId".

(** [POST /webhook/purchase] (server.js 122-159).  [body] is [req.body].
    The signature header is read and not used. *)
Definition webhook_purchase (P : platform) (body : jsval) : M response :=
  try_catch
    (let order := body in
     console_log "New purchase:" ;;
     discordUserId ← eval (order_discordUserId order);
     if negb (truthy discordUserId) then
       console_error "No Discord user ID found in order" ;;
       res_status_json 400 {[ "error" := VStr "No Discord user ID" ]}
     else
       success ← assignPremiumRole P discordUserId;
       if success : bool then
         key ← eval (get_prop order "id");
         orderId ← eval (get_prop order "id");
         createdAt ← new_Date P;
         record ← new_object {[ "discordId" := discordUserId;
                                "orderId" := orderId;
                                "status" := VStr "active";
                                "createdAt" := createdAt ]};
         subscriptions_set key record ;;
         res_json {[ "success" := VBool true;
                     "message" := VStr "Role assigned successfully" ]}
       else
         res_status_json 500 {[ "error" := VStr "Failed to assign role" ]})
    (fun error =>
       console_error "Webhook error:" ;;
       res_status_json 500 {[ "error" := VStr "Webhook processing failed" ]}).

(** [POST /webhook/cancellation] (server.js 162-192).  Every value in
    the [Map] is an object, so [!subscription] holds exactly when
    [get] found no entry. *)
Definition webhook_cancellation (P : platform) (body : jsval) : M response :=
  try_catch
    (let order := body in
     console_log "Subscription cancelled:" ;;
     key ← eval (get_prop order "id");
     found ← subscriptions_get key;
     match found with
     | None =>
         console_error "Subscription not found" ;;
         res_status_json 404 {[ "error" := VStr "Subscription not found" ]}
     | Some subscription =>
         discordId ← read_field subscription "discordId";
         success ← removePremiumRole P discordId;
         if success : bool then
           write_field subscription "status" (VStr "cancelled") ;;
           cancelledAt ← new_Date P;
           write_field subscription "cancelledAt" cancelledAt ;;
           res_json {[ "success" := VBool true;
                       "message" := VStr "Role removed successfully" ]}
         else
           res_status_json 500 {[ "error" := VStr "Failed to remove role" ]}
     end)
    (fun error =>
       console_error "Cancellation webhook error:" ;;
       res_status_json 500 {[ "error" := VStr "Webhook processing failed" ]}).

(** ** The server as a state machine *)

Inductive request : Type :=
  | Callback (query : obj)
  | Purchase (body : jsval)
  | Cancellation (body : jsval).

(** One request, handled from start to response. *)
Definition handle (P : platform) (r : request) : M response :=
  match r with
  | Callback query => auth_discord_callback P query
  | Purchase body => webhook_purchase P body
  | Cancellation body => webhook_cancellation P body
  end.

(** The worlds the server can be in: it starts with an empty [Map] and
    handles requests one after another, each against a platform of its
    own. *)
Inductive reachable : world -> Prop :=
  | reachable_initial : reachable initial_world
  | reachable_handle P r w : reachable w -> reachable (handle P r w).2.

(** ** Reasoning about runs *)

(** [m] returns [a], whatever the world it is started in. *)
Definition returns {A} (m : M A) (a : A) : Prop :=
  forall w, (m w).1 = Ok a.

(** The store proper: the [Map] and the records it refers to. *)
Definition same_store (w w' : world) : Prop :=
  subscriptions w' = subscriptions w /\ heap w' = heap w.

Definition is_call (ev : event) : bool :=
  match ev with
  | EvMapSet _ _ | EvFieldSet _ _ _ => false
  | _ => true
  end.

(** Every step of the grant fulfils. *)
Definition grant_settles (P : platform) (d : jsval) : Prop :=
  exists g m r,
    guilds_fetch P (DISCORD_GUILD_ID (env P)) = Ok g /\
    members_fetch P g d = Ok m /\
    roles_fetch P g (PREMIUM_ROLE_ID (env P)) = Ok r /\
    roles_add P m r = Ok tt.

(** Every step of the revoke fulfils. *)
Definition revoke_settles (P : platform) (d : jsval) : Prop :=
  exists g m r,
    guilds_fetch P (DISCORD_GUILD_ID (env P)) = Ok g /\
    members_fetch P g d = Ok m /\
    roles_fetch P g (PREMIUM_ROLE_ID (env P)) = Ok r /\
    roles_remove P m r = Ok tt.

(** What a role function does to the world: it adds console lines and
    call events, and nothing else. *)
Definition role_run (w : world) (logs : list log_entry) (evs : list event) : world :=
  {| subscriptions := subscriptions w; heap := heap w;
     console := console w ++ logs; clock_reads := clock_reads w;
     trace := trace w ++ evs |}.

(** The statuses that occur in stored records. *)
Definition status_ok (rec : obj) : Prop :=
  rec !! "status" = None
  \/ rec !! "status" = Some (VStr "active")
  \/ rec !! "status" = Some (VStr "cancelled").

(** Every reference in the [Map] points to a record, and every record
    has one of the statuses above. *)
Definition store_wf (w : world) : Prop :=
  Forall (fun kl : jsval * loc => (kl.2 < length (heap w))%nat) (subscriptions w)
  /\ Forall status_ok (heap w).

(** ** A concrete run: the scenario of the specification *)

Module Scenario.

Definition env0 : process_env :=
  {| DISCORD_GUILD_ID := Some "guild-1"; PREMIUM_ROLE_ID := Some "role-9";
     DISCORD_CLIENT_ID := Some "client"; DISCORD_CLIENT_SECRET := Some "secret";
     DISCORD_REDIRECT_URI := Some "https://bot.example/auth/discord/callback";
     WEBSITE_URL := Some "https://shop.example" |}.

(** A platform where everything works. *)
Definition up : platform :=
  {| env := env0;
     guilds_fetch := fun _ => Ok {| guild_id := "guild-1" |};
     members_fetch := fun _ _ => Ok {| member_id := "d1"; user_tag := "buyer#0001" |};
     roles_fetch := fun _ _ => Ok (Some {| role_id := "role-9" |});
     roles_add := fun _ _ => Ok tt;
     roles_remove := fun _ _ => Ok tt;
     token_request := fun _ =>
       Ok {| response_status := 200;
             response_json := Ok (VObj {[ "access_token" := VStr "tok" ]}) |};
     profile_request := fun _ =>
       Ok {| response_status := 200;
             response_json := Ok (VObj {[ "id" := VStr "d1";
                                          "username" := VStr "buyer" ]}) |};
     clock := fun n => 1730000000000 + Z.of_nat n |}.

(** A platform where the member lookup rejects. *)
Definition down : platform :=
  {| env := env0;
     guilds_fetch := fun _ => Ok {| guild_id := "guild-1" |};
     members_fetch := fun _ _ => Throw (Rejected "Unknown Member");
     roles_fetch := fun _ _ => Ok (Some {| role_id := "role-9" |});
     roles_add := fun _ _ => Ok tt;
     roles_remove := fun _ _ => Ok tt;
     token_request := fun _ => Throw (Rejected "fetch failed");
     profile_request := fun _ => Throw (Rejected "fetch failed");
     clock := fun n => 1730000000000 + Z.of_nat n |}.

Definition purchase_body : jsval :=
  VObj {[ "id" := VStr "o1"; "discordUserId" := VStr "d1" ]}.

Definition cancellation_body : jsval := VObj {[ "id" := VStr "o1" ]}.

Definition after_purchase : world :=
  (webhook_purchase up purchase_body initial_world).2.

Definition after_cancellation : world :=
  (webhook_cancellation up cancellation_body after_purchase).2.


Definition callback_query : obj := {[ "code" := VStr "abc" ]}.

Definition callback_run : result response * world :=
  auth_discord_callback up callback_query initial_world.

End Scenario.

(** ** The two read-only routes *)

(** The bot's own account, [client.user]: [null] until the gateway
    session is ready. *)
Record ClientUser := { client_tag : string }.

(** *** [Date.prototype.toISOString] *)

(** Year, month (1-12) and day of the month of a day number counted from
    1970-01-01, in the proleptic Gregorian calendar. *)
Definition civil_from_days (days : Z) : Z * Z * Z :=
  let z := days + 719468 in
  let era := z / 146097 in
  let doe := z - era * 146097 in
  let yoe := (doe - doe / 1460 + doe / 36524 - doe / 146096) / 365 in
  let doy := doe - (365 * yoe + yoe / 4 - yoe / 100) in
  let mp := (5 * doy + 2) / 153 in
  let d := doy - (153 * mp + 2) / 5 + 1 in
  let m := if mp <? 10 then mp + 3 else mp - 9 in
  let y := yoe + era * 400 in
  (if m <=? 2 then y + 1 else y, m, d).

Fixpoint zeros (n : nat) : string :=
  match n with
  | O => ""
  | S n' => String "0"%char (zeros n')
  end.

(** Decimal digits of a non-negative number, padded with zeros on the
    left to [width] characters. *)
Definition pad (width : nat) (n : Z) : string :=
  let digits := pretty n in
  zeros (width - String.length digits) +:+ digits.

(** Four digits for the years 0 to 9999, a sign and six digits
    otherwise. *)
Definition year_text (y : Z) : string :=
  if (0 <=? y) && (y <=? 9999) then pad 4 y
  else (if y <? 0 then "-" else "+") +:+ pad 6 (Z.abs y).

(** The text of a time value (milliseconds since the epoch, UTC):
    [YYYY-MM-DDTHH:mm:ss.sssZ]. *)
Definition toISOString_ms (t : Z) : string :=
  let '(y, m, d) := civil_from_days (t / 86400000) in
  let in_day := t mod 86400000 in
  year_text y +:+ "-" +:+ pad 2 m +:+ "-" +:+ pad 2 d
    +:+ "T" +:+ pad 2 (in_day / 3600000)
    +:+ ":" +:+ pad 2 ((in_day / 60000) mod 60)
    +:+ ":" +:+ pad 2 ((in_day / 1000) mod 60)
    +:+ "." +:+ pad 3 (in_day mod 1000) +:+ "Z".

(** [v.toISOString()]; only a [Date] has the method. *)
Definition Date_toISOString (v : jsval) : result jsval :=
  match v with
  | VDate ms => Ok (VStr (toISOString_ms ms))
  | _ => Throw (TypeError "toISOString is not a function")
  end.

(** *** [encodeURIComponent] *)

(** Strings hold the UTF-8 bytes of the text.  The characters that are
    left as they are: letters, digits and [- _ . ! ~ * ' ( )]. *)
Definition uri_unreserved (c : ascii) : bool :=
  let n := Ascii.N_of_ascii c in
  ((65 <=? n) && (n <=? 90) || (97 <=? n) && (n <=? 122)
   || (48 <=? n) && (n <=? 57))%N
  || bool_decide (c ∈ ["-"; "_"; "."; "!"; "~"; "*"; "'"; "("; ")"]%char).

Definition hex_digit (n : N) : ascii :=
  if (n <? 10)%N then Ascii.ascii_of_N (48 + n) else Ascii.ascii_of_N (55 + n).

(** [%XX], with upper-case hexadecimal digits. *)
Definition percent_encode (c : ascii) : string :=
  let n := Ascii.N_of_ascii c in
  String "%"%char
    (String (hex_digit (n / 16)) (String (hex_digit (n mod 16)) EmptyString)).

(** Every byte that is not unreserved is replaced by its escape.  (The
    built-in throws on a lone surrogate; a value of [process.env] has
    none.) *)
Fixpoint encodeURIComponent (s : string) : string :=
  match s with
  | EmptyString => EmptyString
  | String c rest =>
      if uri_unreserved c then String c (encodeURIComponent rest)
      else percent_encode c +:+ encodeURIComponent rest
  end.

(** [GET /health] (server.js 195-201).  [client_user] is [client.user]
    at the time of the request. *)
Definition health (P : platform) (client_user : option ClientUser) : M response :=
  let bot := match client_user with
             | Some _ => "connected"
             | None => "disconnected"
             end in
  now ← new_Date P;
  timestamp ← eval (Date_toISOString now);
  res_json {[ "status" := VStr "healthy"; "bot" := VStr bot;
              "timestamp" := timestamp ]}.

(** [GET /auth/discord] (server.js 204-207) *)
Definition auth_discord (P : platform) : M response :=
  let authUrl :=
    "https://discord.com/api/oauth2/authorize?client_id="
      +:+ template_of (DISCORD_CLIENT_ID (env P))
      +:+ "&redirect_uri="
      +:+ encodeURIComponent (template_of (DISCORD_REDIRECT_URI (env P)))
      +:+ "&response_type=code&scope=identify" in
  res_json {[ "authUrl" := VStr authUrl ]}.

(** ** All five routes *)

Inductive route : Type :=
  | GET_auth_discord_callback (query : obj)
  | POST_webhook_purchase (body : jsval)
  | POST_webhook_cancellation (body : jsval)
  | GET_health (client_user : option ClientUser)
  | GET_auth_discord.

Definition serve (P : platform) (r : route) : M response :=
  match r with
  | GET_auth_discord_callback query => auth_discord_callback P query
  | POST_webhook_purchase body => webhook_purchase P body
  | POST_webhook_cancellation body => webhook_cancellation P body
  | GET_health client_user => health P client_user
  | GET_auth_discord => auth_discord P
  end.



(** Every step of the OAuth exchange fulfils and both payloads can be
    read: the code is exchanged for [tokenData], whose [access_token]
    fetches the profile [userData]. *)
Definition callback_settles (P : platform) (code tokenData userData : jsval) : Prop :=
  exists tokenResponse access_token userResponse,
    token_request P code = Ok tokenResponse /\
    response_json tokenResponse = Ok tokenData /\
    get_prop tokenData "access_token" = Ok access_token /\
    profile_request P access_token = Ok userResponse /\
    response_json userResponse = Ok userData /\
    nullish userData = false.

(** What one request can do to the store: nothing; add one new record
    (without status or active, not cancelled) and point one key to it; or
    mark one record that some key refers to as cancelled. *)
Inductive store_step (w w' : world) : Prop :=
  | step_none :
      subscriptions w' = subscriptions w -> heap w' = heap w ->
      store_step w w'
  | step_add k (o : obj) :
      subscriptions w' = map_set k (length (heap w)) (subscriptions w) ->
      heap w' = heap w ++ [o] ->
      o !! "status" = None \/ o !! "status" = Some (VStr "active") ->
      o !! "cancelledAt" = None ->
      store_step w w'
  | step_cancel k l t :
      map_get k (subscriptions w) = Some l ->
      subscriptions w' = subscriptions w ->
      heap w' = alter (<["cancelledAt" := VDate t]>) l
                  (alter (<["status" := VStr "cancelled"]>) l (heap w)) ->
      store_step w w'.

(** [w'] is [w] after any number of requests, each against a platform of
    its own. *)
Inductive serves : world -> world -> Prop :=
  | serves_refl w : serves w w
  | serves_step P r w w' : serves w w' -> serves w (serve P r w').2.

(** The inverse reading of an escape, used to show that
    [encodeURIComponent] loses nothing: the value of a hexadecimal digit
    and the byte of two digits. *)
Definition hex_value (c : ascii) : option N :=
  let n := Ascii.N_of_ascii c in
  if ((48 <=? n) && (n <=? 57))%N then Some (n - 48)%N
  else if ((65 <=? n) && (n <=? 70))%N then Some (n - 55)%N
  else None.

Definition unescape_byte (a b : ascii) : option ascii :=
  match hex_value a, hex_value b with
  | Some hi, Some lo => Some (Ascii.ascii_of_N (16 * hi + lo))
  | _, _ => None
  end.

Fixpoint unescape (s : string) : option string :=
  match s with
  | EmptyString => Some EmptyString
  | String c rest =>
      if Ascii.eqb c "%" then
        match rest with
        | String a (String b rest') =>
            match unescape_byte a b, unescape rest' with
            | Some byte, Some text => Some (String byte text)
            | _, _ => None
            end
        | _ => None
        end
      else option_map (String c) (unescape rest)
  end.

(** ** More concrete inputs *)

Module Cases.

(** A purchase and a cancellation that carry no order id. *)
Definition purchase_without_id : jsval := VObj {[ "discordUserId" := VStr "d1" ]}.

Definition cancellation_without_id : jsval := VObj ∅.

(** A purchase with an id in both places. *)
Definition both_ids : obj :=
  {[ "customFields" := VObj {[ "discordUserId" := VStr "nested" ]};
     "discordUserId" := VStr "top" ]}.

(** A platform like [Scenario.up], for another buyer, whose clock shows
    at its third reading what [Scenario.up] shows at its first. *)
Definition up_again : platform :=
  {| env := Scenario.env0;
     guilds_fetch := guilds_fetch Scenario.up;
     members_fetch := members_fetch Scenario.up;
     roles_fetch := roles_fetch Scenario.up;
     roles_add := roles_add Scenario.up;
     roles_remove := roles_remove Scenario.up;
     token_request := token_request Scenario.up;
     profile_request := fun _ =>
       Ok {| response_status := 200;
             response_json := Ok (VObj {[ "id" := VStr "d2";
                                          "username" := VStr "other" ]}) |};
     clock := fun n => 1729999999998 + Z.of_nat n |}.

(** The world after the OAuth callback of [Scenario.callback_run]. *)
Definition after_callback : world := Scenario.callback_run.2.


(** A second order, and the world that holds both. *)
Definition second_purchase_body : jsval :=
  VObj {[ "id" := VStr "o2"; "discordUserId" := VStr "d2" ]}.

Definition two_orders : world :=
  (webhook_purchase Scenario.up second_purchase_body Scenario.after_purchase).2.

End Cases.

(** ** Tactics for running handler code *)

Ltac unfold_M :=
  unfold try_catch, await, eval, console_log, console_error, Date_now,
    new_Date, new_object, subscriptions_get, subscriptions_set, read_field,
    write_field, res_status_json, res_json, res_redirect,
    mbind, mret, M_bind, M_ret, with_subscriptions, with_heap, with_console,
    with_clock_reads, with_trace in *;
  cbn [subscriptions heap console clock_reads trace fst snd] in *.

Ltac role_cases P d op :=
  let g := fresh "g" in
  let m := fresh "m" in
  let r := fresh "r" in
  let u := fresh "u" in
  destruct (guilds_fetch P (DISCORD_GUILD_ID (env P))) as [g|?] eqn:?;
  [ destruct (members_fetch P g d) as [m|?] eqn:?;
    [ destruct (roles_fetch P g (PREMIUM_ROLE_ID (env P))) as [r|?] eqn:?;
      [ destruct (op P m r) as [u|?] eqn:?;
        [ destruct u | ]
      | ]
    | ]
  | ].

Ltac role_finish :=
  unfold role_run; cbn [subscriptions heap console clock_reads trace];
  rewrite <- ?app_assoc; cbn [app];
  repeat first
    [ reflexivity
    | match goal with
      | H : false = true |- _ => discriminate H
      | |- _ /\ _ => split
      | |- Forall _ _ => repeat constructor
      | |- _ <-> _ => split; intros
      | |- grant_settles _ _ => unfold grant_settles
      | |- revoke_settles _ _ => unfold revoke_settles
      | |- exists _, _ => eexists
      | H : grant_settles _ _ |- _ =>
          destruct H as (? & ? & ? & ? & ? & ? & ?); congruence
      | H : revoke_settles _ _ |- _ =>
          destruct H as (? & ? & ? & ? & ? & ? & ?); congruence
      | |- forall _, _ => intros
      end
    | progress simplify_eq
    | eassumption
    | done ].

(** ** Facts about the [Map], the heap and traces *)

Section store_facts.

Implicit Types (k : jsval) (l : loc) (m : js_map) (h : list obj) (rec o : obj).
Implicit Types (evs pre post : list event).

(** A key compared by content is found again after [set]. *)
Lemma same_value_zero_normalize k :
  primitive k = true -> same_value_zero (normalize_key k) k = true.
Proof.
  destruct k as [| |b|x|s| | |]; cbn; try done.
  - by destruct b.
  - destruct (PrimFloat.eqb 0 x) eqn:E0; cbn.
    + by rewrite E0.
    + unfold PrimFloat.is_nan. by destruct (PrimFloat.eqb x x).
  - intros _. by apply String.eqb_eq.
Qed.

Lemma map_get_set k l m :
  primitive k = true -> map_get k (map_set k l m) = Some l.
Proof.
  intros Hk. induction m as [|[k' l'] m IH]; cbn.
  - by rewrite same_value_zero_normalize.
  - destruct (same_value_zero k' k) eqn:E; cbn; by rewrite E.
Qed.

Lemma lookup_alloc h o : (h ++ [o]) !! length h = Some o.
Proof. by rewrite lookup_app_r, Nat.sub_diag. Qed.

Lemma field_of_alloc h o f :
  field_of (h ++ [o]) (length h) f = default VUndef (o !! f).
Proof. unfold field_of. by rewrite lookup_alloc. Qed.

(** Two assignments to fields of the record at [l]. *)
Lemma lookup_write2 h l rec f1 v1 f2 v2 :
  h !! l = Some rec ->
  alter (<[f2 := v2]>) l (alter (<[f1 := v1]>) l h) !! l
  = Some (<[f2 := v2]> (<[f1 := v1]> rec)).
Proof. intros H. by rewrite !list_lookup_alter_eq, H. Qed.

Lemma lookup_write2_ne h l l' f1 (v1 : jsval) f2 (v2 : jsval) :
  l' ≠ l ->
  alter (<[f2 := v2]>) l (alter (<[f1 := v1]>) l h) !! l' = h !! l'.
Proof. intros H. by rewrite !list_lookup_alter_ne. Qed.

Lemma Forall_map_set (Q : loc -> Prop) k l m :
  Forall (fun kl : jsval * loc => Q kl.2) m -> Q l ->
  Forall (fun kl : jsval * loc => Q kl.2) (map_set k l m).
Proof.
  intros Hm Hl. induction Hm as [|[k' l'] m Hk Hm IH]; cbn.
  - by constructor.
  - destruct (same_value_zero k' k); constructor; done.
Qed.

Lemma map_get_Forall (Q : loc -> Prop) k l m :
  Forall (fun kl : jsval * loc => Q kl.2) m -> map_get k m = Some l -> Q l.
Proof.
  induction 1 as [|[k' l'] m Hk Hm IH]; cbn; [done|].
  destruct (same_value_zero k' k); [by intros [= <-]|done].
Qed.


(** *** Calls and writes in a trace *)

Lemma calls_no_write evs pre y post :
  Forall (fun ev => is_call ev = true) evs -> is_call y = false ->
  evs = pre ++ y :: post -> False.
Proof.
  intros Hcalls Hy ->. apply Forall_app in Hcalls as [_ Hcalls].
  apply Forall_cons in Hcalls as [Hcall _]. congruence.
Qed.

Lemma calls_then_write evs x pre y post :
  Forall (fun ev => is_call ev = true) evs -> is_call y = false ->
  evs ++ [x] = pre ++ y :: post -> pre = evs.
Proof.
  intros Hcalls Hy. revert pre.
  induction Hcalls as [|ev evs Hev _ IH]; intros [|p pre] H; cbn in H.
  - done.
  - injection H as _ H. by destruct pre.
  - injection H as -> _. congruence.
  - injection H as -> H. f_equal. by apply IH.
Qed.

Lemma no_new_events (t : list event) pre y post :
  t = t ++ pre ++ y :: post -> False.
Proof.
  intros H. rewrite <- (app_nil_r t) in H at 1.
  apply app_inv_head in H. by destruct pre.
Qed.

End store_facts.

(** ** The role functions *)

Section role_functions.

Variables (P : platform) (d : jsval) (w : world).

(** Each function ends with a boolean, adds only console lines and call
    events, and starts with the guild lookup. *)
Lemma assignPremiumRole_run :
  exists b logs evs,
    assignPremiumRole P d w = (Ok b, role_run w logs evs)
    /\ Forall (fun ev => is_call ev = true) evs
    /\ (b = true <-> grant_settles P d)
    /\ exists rest,
         evs = EvGuildsFetch (DISCORD_GUILD_ID (env P)) :: rest
         /\ forall g, guilds_fetch P (DISCORD_GUILD_ID (env P)) = Ok g ->
              head rest = Some (EvMembersFetch g d).
Proof.
  unfold assignPremiumRole. unfold_M.
  role_cases P d roles_add; eexists _, _, _.
  all: role_finish.
Qed.

Lemma removePremiumRole_run :
  exists b logs evs,
    removePremiumRole P d w = (Ok b, role_run w logs evs)
    /\ Forall (fun ev => is_call ev = true) evs
    /\ (b = true <-> revoke_settles P d)
    /\ exists rest,
         evs = EvGuildsFetch (DISCORD_GUILD_ID (env P)) :: rest
         /\ forall g, guilds_fetch P (DISCORD_GUILD_ID (env P)) = Ok g ->
              head rest = Some (EvMembersFetch g d).
Proof.
  unfold removePremiumRole. unfold_M.
  role_cases P d roles_remove; eexists _, _, _.
  all: role_finish.
Qed.

(** A grant that returns [true] made exactly the four calls. *)
Lemma assignPremiumRole_true w' :
  assignPremiumRole P d w = (Ok true, w') ->
  exists g m r,
    guilds_fetch P (DISCORD_GUILD_ID (env P)) = Ok g /\
    members_fetch P g d = Ok m /\
    roles_fetch P g (PREMIUM_ROLE_ID (env P)) = Ok r /\
    roles_add P m r = Ok tt /\
    trace w' = trace w ++ [EvGuildsFetch (DISCORD_GUILD_ID (env P));
                           EvMembersFetch g d;
                           EvRolesFetch g (PREMIUM_ROLE_ID (env P));
                           EvRolesAdd m r].
Proof.
  unfold assignPremiumRole. unfold_M.
  role_cases P d roles_add; intros [= <-]; try discriminate.
  eexists _, _, _. repeat split; try eassumption.
  cbn. by rewrite <- !app_assoc.
Qed.

End role_functions.

Ltac use_returns f P d w0 Hrun :=
  try match goal with
      | H : returns (f P d) _ |- _ =>
          specialize (H w0); rewrite Hrun in H; cbn in H;
          injection H as ->
      end.

Ltac call_assign :=
  match goal with
  | |- context [assignPremiumRole ?P ?d ?w0] =>
      let b := fresh "b" in
      let Hrun := fresh "Hrun" in
      destruct (assignPremiumRole_run P d w0)
        as (b & ?logs & ?evs & Hrun & ?Hcalls & ?Hb & ?rest & ?Hevs & ?Hmem);
      use_returns assignPremiumRole P d w0 Hrun; rewrite Hrun
  end.

Ltac call_remove :=
  match goal with
  | |- context [removePremiumRole ?P ?d ?w0] =>
      let b := fresh "b" in
      let Hrun := fresh "Hrun" in
      destruct (removePremiumRole_run P d w0)
        as (b & ?logs & ?evs & Hrun & ?Hcalls & ?Hb & ?rest & ?Hevs & ?Hmem);
      use_returns removePremiumRole P d w0 Hrun; rewrite Hrun
  end.

(** *** Reading the request body *)

(** A body whose identity expression evaluates can be read for its
    order id as well. *)
Lemma order_discordUserId_id body d :
  order_discordUserId body = Ok d -> exists oid, get_prop body "id" = Ok oid.
Proof.
  unfold order_discordUserId, custom_field_identity.
  destruct body; cbn; intros H; try discriminate; eauto.
Qed.

Lemma order_discordUserId_falsy body cf n t :
  get_prop body "customFields" = Ok cf ->
  get_prop_opt cf "discordUserId" = Ok n -> truthy n = false ->
  get_prop body "discordUserId" = Ok t ->
  order_discordUserId body = Ok t.
Proof.
  intros Hcf Hn Hfalsy Ht. unfold order_discordUserId, custom_field_identity.
  rewrite Hcf. cbn. rewrite Hn. cbn. by rewrite Hfalsy.
Qed.

(** ** Invariants of the reachable worlds *)

Lemma store_wf_alloc w (o : obj) k :
  store_wf w -> status_ok o ->
  Forall (fun kl : jsval * loc => (kl.2 < length (heap w ++ [o]))%nat)
    (map_set k (length (heap w)) (subscriptions w))
  /\ Forall status_ok (heap w ++ [o]).
Proof.
  intros [Hm Hh] Ho. split.
  - apply (Forall_map_set (fun l => (l < length (heap w ++ [o]))%nat)).
    + eapply Forall_impl; [exact Hm|]. intros [? ?] ?; cbn in *.
      rewrite length_app; cbn. lia.
    + rewrite length_app; cbn. lia.
  - apply Forall_app. split; [done|]. by constructor.
Qed.

Lemma auth_discord_callback_wf P query w :
  store_wf w -> store_wf (auth_discord_callback P query w).2.
Proof.
  intros Hwf. unfold auth_discord_callback.
  destruct (truthy _); cbn; [|done].
  unfold_M.
  destruct (token_request P _) as [tokenResponse|]; cbn; [|done].
  destruct (response_json tokenResponse) as [tokenData|]; cbn; [|done].
  destruct (get_prop tokenData "access_token") as [token|]; cbn; [|done].
  destruct (profile_request P token) as [userResponse|]; cbn; [|done].
  destruct (response_json userResponse) as [userData|]; cbn; [|done].
  destruct (get_prop userData "id"); cbn; [|done].
  destruct (get_prop userData "username"); cbn; [|done].
  apply (store_wf_alloc
           {| subscriptions := subscriptions w; heap := heap w;
              console := console w; clock_reads := clock_reads w;
              trace := trace w |}); [done|]. by left.
Qed.

Lemma webhook_purchase_wf P body w :
  store_wf w -> store_wf (webhook_purchase P body w).2.
Proof.
  intros Hwf. unfold webhook_purchase. unfold_M.
  destruct (order_discordUserId body) as [d|]; cbn; [|done].
  destruct (truthy d); cbn; [|done].
  call_assign. destruct b; cbn; [|done].
  destruct (get_prop body "id"); cbn; [|done].
  apply (store_wf_alloc
           {| subscriptions := subscriptions w; heap := heap w;
              console := console w; clock_reads := clock_reads w;
              trace := trace w |}); [done|]. by right; left.
Qed.

Lemma webhook_cancellation_wf P body w :
  store_wf w -> store_wf (webhook_cancellation P body w).2.
Proof.
  intros Hwf. unfold webhook_cancellation. unfold_M.
  destruct (get_prop body "id"); cbn; [|done].
  destruct (map_get _ _) as [l|]; cbn; [|done].
  call_remove. destruct b; cbn; [|done].
  destruct Hwf as [Hm Hh]. split; cbn.
  - by rewrite !length_alter.
  - apply Forall_alter; [apply Forall_alter; [done|]|].
    + intros rec _ _. right; right. apply lookup_insert_eq.
    + intros rec _ H. unfold status_ok. by rewrite lookup_insert_ne.
Qed.

(** Every reachable world is well-formed. *)
Lemma reachable_wf w : reachable w -> store_wf w.
Proof.
  induction 1 as [|P [query|body|body] w _ IH].
  - split; constructor.
  - by apply auth_discord_callback_wf.
  - by apply webhook_purchase_wf.
  - by apply webhook_cancellation_wf.
Qed.

(** In a reachable world an entry of the [Map] always leads to a record,
    and its status is absent, "active" or "cancelled": never
    "pending-link". *)
Lemma reachable_record w k l :
  reachable w -> map_get k (subscriptions w) = Some l ->
  exists rec : obj, heap w !! l = Some rec /\ status_ok rec
    /\ rec !! "status" ≠ Some (VStr "pending-link").
Proof.
  intros Hw Hget. destruct (reachable_wf w Hw) as [Hm Hh].
  pose proof (map_get_Forall (fun l => (l < length (heap w))%nat) _ _ _ Hm Hget) as Hl.
  destruct (lookup_lt_is_Some_2 _ _ Hl) as [rec Hrec].
  exists rec. split; [done|].
  assert (Hok : status_ok rec).
  { rewrite Forall_lookup in Hh. by eapply Hh. }
  split; [done|]. intros Hpending.
  destruct Hok as [Hok|[Hok|Hok]]; rewrite Hok in Hpending; discriminate.
Qed.

(** ** Role Assignment Client: the claim *)

(** C9. Neither role function ever throws to its caller.  For every
    identity id and every behaviour of the platform, each returns a
    boolean: [true] when every step fulfils, [false] as soon as a step
    (guild, member or role lookup, the role change itself) rejects.
    Neither touches the store. *)
Theorem role_functions_never_throw P d w :
  (exists b w',
     assignPremiumRole P d w = (Ok b, w') /\ same_store w w'
     /\ (b = true <-> grant_settles P d)
     /\ (b = false <-> ~ grant_settles P d))
  /\ (exists b w',
        removePremiumRole P d w = (Ok b, w') /\ same_store w w'
        /\ (b = true <-> revoke_settles P d)
        /\ (b = false <-> ~ revoke_settles P d)).
Proof.
  split.
  - destruct (assignPremiumRole_run P d w) as (b & logs & evs & Hrun & _ & Hb & _).
    exists b, (role_run w logs evs). repeat split; try done; try apply Hb.
    + intros -> Hs. by apply Hb in Hs.
    + intros Hn. destruct b; [|done]. destruct Hn. by apply Hb.
  - destruct (removePremiumRole_run P d w) as (b & logs & evs & Hrun & _ & Hb & _).
    exists b, (role_run w logs evs). repeat split; try done; try apply Hb.
    + intros -> Hs. by apply Hb in Hs.
    + intros Hn. destruct b; [|done]. destruct Hn. by apply Hb.
Qed.

Lemma role_functions_never_throw_witness :
  exists w',
    assignPremiumRole Scenario.down (VStr "d1") initial_world = (Ok false, w')
    /\ same_store initial_world w'.
Proof.
  destruct (proj1 (role_functions_never_throw Scenario.down (VStr "d1")
                     initial_world))
    as (b & w' & Hrun & Hsame & _ & Hfalse).
  exists w'. split; [|exact Hsame].
  rewrite Hrun. f_equal. f_equal. apply Hfalse.
  intros (g & m & r & _ & Hmember & _). discriminate Hmember.
Defined.

(** ** OAuth callback: the claims *)

(** C8. An OAuth callback without a [code] query parameter is answered
    with status 400 and the world is left exactly as it was: no token
    exchange, no profile fetch, no write to the store. *)
Theorem callback_missing_code P (query : obj) w :
  query !! "code" = None ->
  auth_discord_callback P query w =
    (Ok (JsonResponse 400 (VObj {[ "error" := VStr "No code provided" ]})), w).
Proof.
  intros Hcode. unfold auth_discord_callback. by rewrite Hcode.
Qed.

Lemma callback_missing_code_witness :
  auth_discord_callback Scenario.up {[ "state" := VStr "xyz" ]} initial_world =
    (Ok (JsonResponse 400 (VObj {[ "error" := VStr "No code provided" ]})),
     initial_world).
Proof. apply callback_missing_code. reflexivity. Defined.

(** C3, as the code has it.  An OAuth callback with a code whose token
    exchange and profile fetch succeed stores, under the session key (the
    decimal text of the clock reading), a new record that holds the
    profile's id as [discordId], its [username] and a [timestamp], and no
    [status] field; it answers with a redirect (302) to the configured
    website's [/checkout] with the session key as the [session] query
    parameter. *)
Theorem callback_stores_session P (query : obj) w code
    tokenResponse (tokenData : obj) userResponse (userData : obj) :
  query !! "code" = Some code -> truthy code = true ->
  token_request P code = Ok tokenResponse ->
  response_json tokenResponse = Ok (VObj tokenData) ->
  profile_request P (default VUndef (tokenData !! "access_token")) = Ok userResponse ->
  response_json userResponse = Ok (VObj userData) ->
  let sessionId := number_toString (clock P (clock_reads w)) in
  let l := length (heap w) in
  let record : obj :=
    {[ "discordId" := default VUndef (userData !! "id");
       "username" := default VUndef (userData !! "username");
       "timestamp" := VNum (number_of_ms (clock P (S (clock_reads w)))) ]} in
  exists w',
    auth_discord_callback P query w =
      (Ok (RedirectResponse 302
             (template_of (WEBSITE_URL (env P))
                +:+ "/checkout?session=" +:+ sessionId)), w')
    /\ subscriptions w' = map_set (VStr sessionId) l (subscriptions w)
    /\ heap w' = heap w ++ [record]
    /\ map_get (VStr sessionId) (subscriptions w') = Some l
    /\ heap w' !! l = Some record
    /\ record !! "status" = None.
Proof.
  intros Hcode Htruthy Htok Htokjson Hprof Hprofjson sessionId l record.
  unfold auth_discord_callback. rewrite Hcode. cbn. rewrite Htruthy. cbn.
  unfold_M. rewrite Htok, Htokjson. cbn. rewrite Hprof, Hprofjson. cbn.
  eexists. split; [reflexivity|]. cbn.
  repeat split.
  - by apply map_get_set.
  - apply lookup_alloc.
Qed.

Lemma callback_stores_session_witness :
  exists w',
    auth_discord_callback Scenario.up {[ "code" := VStr "abc" ]} initial_world =
      (Ok (RedirectResponse 302
             "https://shop.example/checkout?session=1730000000000"), w')
    /\ map_get (VStr "1730000000000") (subscriptions w') = Some 0%nat
    /\ heap w' !! 0%nat =
         Some {[ "discordId" := VStr "d1"; "username" := VStr "buyer";
                 "timestamp" := VNum 1730000000001%float ]}.
Proof.
  destruct (callback_stores_session Scenario.up {[ "code" := VStr "abc" ]}
              initial_world (VStr "abc")
              {| response_status := 200;
                 response_json := Ok (VObj {[ "access_token" := VStr "tok" ]}) |}
              {[ "access_token" := VStr "tok" ]}
              {| response_status := 200;
                 response_json := Ok (VObj {[ "id" := VStr "d1";
                                              "username" := VStr "buyer" ]}) |}
              {[ "id" := VStr "d1"; "username" := VStr "buyer" ]})
    as (w' & Hrun & _ & _ & Hget & Hrec & _); try reflexivity.
  exists w'. repeat split; assumption.
Defined.

(** C3, as the specification has it, fails: after a callback whose token
    exchange and profile fetch succeed, the record stored under the
    session key has no status, and no stored record has status
    "pending-link". *)
Lemma callback_record_not_pending_link :
  token_request Scenario.up (VStr "abc")
    = Ok {| response_status := 200;
            response_json := Ok (VObj {[ "access_token" := VStr "tok" ]}) |}
  /\ profile_request Scenario.up (VStr "tok")
     = Ok {| response_status := 200;
             response_json := Ok (VObj {[ "id" := VStr "d1";
                                          "username" := VStr "buyer" ]}) |}
  /\ Scenario.callback_run.1
     = Ok (RedirectResponse 302
             "https://shop.example/checkout?session=1730000000000")
  /\ map_get (VStr "1730000000000") (subscriptions Scenario.callback_run.2)
     = Some 0%nat
  /\ field_of (heap Scenario.callback_run.2) 0%nat "status" = VUndef
  /\ ~ (exists l (rec : obj),
          heap Scenario.callback_run.2 !! l = Some rec
          /\ rec !! "status" = Some (VStr "pending-link")).
Proof.
  repeat split.
  intros (l & rec & Hrec & Hstatus).
  destruct l as [|l]; [|by destruct l].
  vm_compute in Hrec. injection Hrec as <-. by vm_compute in Hstatus.
Qed.

(** ** Purchase webhook: the claims *)

(** C4, as the code has it.  A purchase webhook whose body was parsed
    (it is not [undefined] or [null], so its fields can be read) and has
    no identity id in the custom field and none at top level (each reads
    as [undefined], or as any other falsy value) is answered with status
    400; the [Map] and the stored records are unchanged and no call is
    made. *)
Theorem purchase_missing_identity P body w cf n t :
  get_prop body "customFields" = Ok cf ->
  get_prop_opt cf "discordUserId" = Ok n -> truthy n = false ->
  get_prop body "discordUserId" = Ok t -> truthy t = false ->
  exists w',
    webhook_purchase P body w =
      (Ok (JsonResponse 400 (VObj {[ "error" := VStr "No Discord user ID" ]})), w')
    /\ same_store w w'
    /\ trace w' = trace w.
Proof.
  intros Hcf Hn Hnf Ht Htf.
  pose proof (order_discordUserId_falsy _ _ _ _ Hcf Hn Hnf Ht) as Hid.
  unfold webhook_purchase. unfold_M. rewrite Hid, Htf. cbn.
  eexists. split; [reflexivity|]. by repeat split.
Qed.

Lemma purchase_missing_identity_witness :
  exists w',
    webhook_purchase Scenario.up (VObj {[ "id" := VStr "o1" ]}) initial_world =
      (Ok (JsonResponse 400 (VObj {[ "error" := VStr "No Discord user ID" ]})), w')
    /\ same_store initial_world w'
    /\ trace w' = trace initial_world.
Proof.
  apply (purchase_missing_identity Scenario.up (VObj {[ "id" := VStr "o1" ]})
           initial_world VUndef VUndef VUndef); reflexivity.
Defined.

(** C4, as the specification has it, fails.  A purchase webhook with no
    parsed body ([req.body] is [undefined]) has an identity id in neither
    place, since neither place can be read; reading [order.customFields]
    throws inside the handler's [try], and the answer is status 500
    "Webhook processing failed", not 400.  The store is unchanged. *)
Lemma purchase_without_body_not_400 :
  custom_field_identity VUndef
    = Throw (TypeError
               "Cannot read properties of undefined or null, reading customFields")
  /\ get_prop VUndef "discordUserId"
     = Throw (TypeError
                "Cannot read properties of undefined or null, reading discordUserId")
  /\ (webhook_purchase Scenario.up VUndef initial_world).1
     = Ok (JsonResponse 500
             (VObj {[ "error" := VStr "Webhook processing failed" ]}))
  /\ (webhook_purchase Scenario.up VUndef initial_world).1
     ≠ Ok (JsonResponse 400 (VObj {[ "error" := VStr "No Discord user ID" ]}))
  /\ subscriptions (webhook_purchase Scenario.up VUndef initial_world).2 = []
  /\ heap (webhook_purchase Scenario.up VUndef initial_world).2 = [].
Proof.
  split; [reflexivity|]. split; [reflexivity|]. split; [reflexivity|].
  split; [|split; reflexivity].
  intros H. vm_compute in H. discriminate H.
Qed.

(** C1. A purchase webhook whose body carries an order id [oid] and an
    identity id [d] (the custom field when it holds one, the top-level
    field otherwise), with the role grant succeeding, writes a new record
    with that [discordId], that [orderId], status "active" and the
    creation time under key [oid] and answers 200 with the success body;
    reading the [Map] at [oid] afterwards yields that record, whose
    status is "active". *)
Theorem purchase_grant_success P body w oid d :
  get_prop body "id" = Ok oid ->
  order_discordUserId body = Ok d -> truthy d = true ->
  returns (assignPremiumRole P d) true ->
  let l := length (heap w) in
  let record : obj :=
    {[ "discordId" := d; "orderId" := oid; "status" := VStr "active";
       "createdAt" := VDate (clock P (clock_reads w)) ]} in
  exists w',
    webhook_purchase P body w =
      (Ok (JsonResponse 200
             (VObj {[ "success" := VBool true;
                      "message" := VStr "Role assigned successfully" ]})), w')
    /\ subscriptions w' = map_set oid l (subscriptions w)
    /\ heap w' = heap w ++ [record]
    /\ heap w' !! l = Some record
    /\ (primitive oid = true ->
        map_get oid (subscriptions w') = Some l
        /\ field_of (heap w') l "status" = VStr "active").
Proof.
  intros Hoid Hid Hd Hgrant l record.
  unfold webhook_purchase. unfold_M. rewrite Hid, Hd. cbn.
  call_assign. rewrite Hoid. cbn.
  eexists. split; [reflexivity|]. cbn.
  repeat split.
  - apply lookup_alloc.
  - by apply map_get_set.
  - by rewrite field_of_alloc.
Qed.

Lemma purchase_grant_success_witness :
  exists w',
    webhook_purchase Scenario.up Scenario.purchase_body initial_world =
      (Ok (JsonResponse 200
             (VObj {[ "success" := VBool true;
                      "message" := VStr "Role assigned successfully" ]})), w')
    /\ map_get (VStr "o1") (subscriptions w') = Some 0%nat
    /\ field_of (heap w') 0%nat "discordId" = VStr "d1"
    /\ field_of (heap w') 0%nat "status" = VStr "active".
Proof.
  destruct (purchase_grant_success Scenario.up Scenario.purchase_body
              initial_world (VStr "o1") (VStr "d1"))
    as (w' & Hrun & _ & Hheap & _ & Hread);
    [reflexivity | reflexivity | reflexivity | intros w; reflexivity |].
  exists w'. destruct Hread as [Hget Hstatus]; [reflexivity|].
  repeat split; try assumption.
  unfold field_of. rewrite Hheap. reflexivity.
Defined.

(** C5. In a purchase webhook with an identity id present, a failed
    grant is answered with status 500 and leaves the [Map] and the stored
    records as they were.  More generally, whatever the body and the
    platform: the handler changes the store only when the grant
    succeeded, and its write to the [Map] comes after a [roles.add] call
    that fulfilled. *)
Theorem purchase_grant_failure P body w :
  let run := webhook_purchase P body w in
  (forall d,
     order_discordUserId body = Ok d -> truthy d = true ->
     returns (assignPremiumRole P d) false ->
     run.1 = Ok (JsonResponse 500 (VObj {[ "error" := VStr "Failed to assign role" ]}))
     /\ same_store w run.2)
  /\ (~ same_store w run.2 ->
      exists d, order_discordUserId body = Ok d /\ truthy d = true
                /\ grant_settles P d)
  /\ (forall pre k l post,
        trace run.2 = trace w ++ pre ++ EvMapSet k l :: post ->
        exists m r, EvRolesAdd m r ∈ pre /\ roles_add P m r = Ok tt).
Proof.
  cbn zeta. unfold webhook_purchase. unfold_M.
  destruct (order_discordUserId body) as [d|e] eqn:Hid; cbn.
  2:{ repeat split; try done.
      - intros []. by split.
      - intros pre k l post H. by apply no_new_events in H. }
  destruct (truthy d) eqn:Hd; cbn.
  2:{ repeat split; try congruence.
      - intros []. by split.
      - intros pre k l post H. by apply no_new_events in H. }
  call_assign. destruct b; cbn.
  - destruct (order_discordUserId_id _ _ Hid) as [oid Hoid].
    rewrite Hoid. cbn.
    pose proof Hrun as Htrue.
    apply assignPremiumRole_true in Htrue as (g & m & r & Hg & Hm & Hr & Hadd & Htr).
    cbn in Htr. apply app_inv_head in Htr.
    split; [|split].
    + intros d' [= <-] _ Hret.
      match type of Hrun with _ _ _ ?w0 = _ => specialize (Hret w0) end.
      by rewrite Hrun in Hret.
    + intros _. exists d. repeat split; try done. by apply Hb.
    + intros pre k l post H. rewrite <- app_assoc in H. apply app_inv_head in H.
      apply calls_then_write in H as ->; [|done..].
      exists m, r. split; [|done]. rewrite Htr. repeat constructor.
  - split; [|split].
    + intros d' [= <-] _ _. by repeat split.
    + intros []. by split.
    + intros pre k l post H. apply app_inv_head in H.
      by apply calls_no_write in H.
Qed.

Lemma purchase_grant_failure_witness :
  (webhook_purchase Scenario.down Scenario.purchase_body initial_world).1 =
    Ok (JsonResponse 500 (VObj {[ "error" := VStr "Failed to assign role" ]}))
  /\ same_store initial_world
       (webhook_purchase Scenario.down Scenario.purchase_body initial_world).2.
Proof.
  apply (proj1 (purchase_grant_failure Scenario.down Scenario.purchase_body
                  initial_world) (VStr "d1"));
    [reflexivity | reflexivity | intros w; reflexivity].
Defined.

(** ** Cancellation webhook: the claims *)

(** C6. A cancellation webhook whose order id is not a key of the [Map]
    is answered with status 404; the [Map] and the stored records are
    unchanged and no call (in particular no revoke) is made. *)
Theorem cancellation_unknown_order P body w oid :
  get_prop body "id" = Ok oid ->
  map_get oid (subscriptions w) = None ->
  exists w',
    webhook_cancellation P body w =
      (Ok (JsonResponse 404 (VObj {[ "error" := VStr "Subscription not found" ]})), w')
    /\ same_store w w'
    /\ trace w' = trace w.
Proof.
  intros Hid Hget. unfold webhook_cancellation. unfold_M.
  rewrite Hid, Hget. cbn.
  eexists. split; [reflexivity|]. by repeat split.
Qed.

Lemma cancellation_unknown_order_witness :
  exists w',
    webhook_cancellation Scenario.up (VObj {[ "id" := VStr "o2" ]})
      Scenario.after_purchase =
      (Ok (JsonResponse 404 (VObj {[ "error" := VStr "Subscription not found" ]})), w')
    /\ same_store Scenario.after_purchase w'
    /\ trace w' = trace Scenario.after_purchase.
Proof.
  apply (cancellation_unknown_order Scenario.up (VObj {[ "id" := VStr "o2" ]})
           Scenario.after_purchase (VStr "o2")); reflexivity.
Defined.

(** C7. A cancellation webhook whose order id is a key of the [Map],
    with the revoke failing, is answered with status 500; the [Map] and
    every stored record are unchanged, the record's status in
    particular. *)
Theorem cancellation_revoke_failure P body w oid l :
  get_prop body "id" = Ok oid ->
  map_get oid (subscriptions w) = Some l ->
  returns (removePremiumRole P (field_of (heap w) l "discordId")) false ->
  exists w',
    webhook_cancellation P body w =
      (Ok (JsonResponse 500 (VObj {[ "error" := VStr "Failed to remove role" ]})), w')
    /\ same_store w w'
    /\ field_of (heap w') l "status" = field_of (heap w) l "status".
Proof.
  intros Hoid Hget Hrevoke. unfold webhook_cancellation. unfold_M.
  rewrite Hoid, Hget. cbn.
  call_remove. cbn.
  eexists. split; [reflexivity|]. by repeat split.
Qed.

Lemma cancellation_revoke_failure_witness :
  exists w',
    webhook_cancellation Scenario.down Scenario.cancellation_body
      Scenario.after_purchase =
      (Ok (JsonResponse 500 (VObj {[ "error" := VStr "Failed to remove role" ]})), w')
    /\ same_store Scenario.after_purchase w'
    /\ field_of (heap w') 0%nat "status" = VStr "active".
Proof.
  destruct (cancellation_revoke_failure Scenario.down Scenario.cancellation_body
              Scenario.after_purchase (VStr "o1") 0%nat)
    as (w' & Hrun & Hsame & Hstatus);
    [reflexivity | reflexivity | intros w; reflexivity |].
  exists w'. repeat split; try apply Hsame; try assumption.
Defined.

(** C2. A cancellation webhook whose order id is a key of the [Map],
    whose record is active, with the revoke succeeding, sets the record's
    status to "cancelled" and its [cancelledAt] to the current time, on
    the stored record itself, and answers 200 with the success body.  The
    [Map] and the other records are unchanged. *)
Theorem cancellation_revoke_success P body w oid l (rec : obj) :
  get_prop body "id" = Ok oid ->
  map_get oid (subscriptions w) = Some l ->
  heap w !! l = Some rec ->
  rec !! "status" = Some (VStr "active") ->
  returns (removePremiumRole P (field_of (heap w) l "discordId")) true ->
  let now := VDate (clock P (clock_reads w)) in
  exists w',
    webhook_cancellation P body w =
      (Ok (JsonResponse 200
             (VObj {[ "success" := VBool true;
                      "message" := VStr "Role removed successfully" ]})), w')
    /\ subscriptions w' = subscriptions w
    /\ heap w' !! l =
         Some (<["cancelledAt" := now]> (<["status" := VStr "cancelled"]> rec))
    /\ (forall l', l' ≠ l -> heap w' !! l' = heap w !! l')
    /\ field_of (heap w) l "status" = VStr "active"
    /\ field_of (heap w') l "status" = VStr "cancelled"
    /\ field_of (heap w') l "cancelledAt" = now.
Proof.
  intros Hoid Hget Hrec Hactive Hrevoke now.
  unfold webhook_cancellation. unfold_M.
  rewrite Hoid, Hget. cbn.
  call_remove. cbn.
  eexists. split; [reflexivity|]. cbn.
  split; [done|]. split; [by apply lookup_write2|].
  split; [intros l' Hne; by apply lookup_write2_ne|].
  unfold field_of. rewrite lookup_write2 with (rec := rec) by done.
  rewrite Hrec. cbn. rewrite Hactive.
  by rewrite lookup_insert_ne, !lookup_insert_eq.
Qed.

Lemma cancellation_revoke_success_witness :
  exists w',
    webhook_cancellation Scenario.up Scenario.cancellation_body
      Scenario.after_purchase =
      (Ok (JsonResponse 200
             (VObj {[ "success" := VBool true;
                      "message" := VStr "Role removed successfully" ]})), w')
    /\ map_get (VStr "o1") (subscriptions w') = Some 0%nat
    /\ field_of (heap Scenario.after_purchase) 0%nat "status" = VStr "active"
    /\ field_of (heap w') 0%nat "status" = VStr "cancelled"
    /\ field_of (heap w') 0%nat "cancelledAt" = VDate 1730000000001.
Proof.
  destruct (cancellation_revoke_success Scenario.up Scenario.cancellation_body
              Scenario.after_purchase (VStr "o1") 0%nat
              {[ "discordId" := VStr "d1"; "orderId" := VStr "o1";
                 "status" := VStr "active";
                 "createdAt" := VDate 1730000000000 ]})
    as (w' & Hrun & Hsubs & _ & _ & Hold & Hstatus & Hat);
    [reflexivity | reflexivity | reflexivity | reflexivity
    | intros w; reflexivity |].
  exists w'. rewrite Hsubs. repeat split; assumption || reflexivity.
Defined.



(** ** Beyond the claims: more facts about the [Map] *)

Section map_more.

Implicit Types (k : jsval) (l : loc) (m : js_map).

(** [set] never removes a key. *)
Lemma map_get_set_is_Some k k' l m :
  is_Some (map_get k m) -> is_Some (map_get k (map_set k' l m)).
Proof.
  induction m as [|[k0 l0] m IH]; cbn; [by intros [? ?]|].
  destruct (same_value_zero k0 k') eqn:E'; cbn;
    destruct (same_value_zero k0 k); eauto.
Qed.

Lemma map_set_length_present k l m :
  is_Some (map_get k m) -> length (map_set k l m) = length m.
Proof.
  induction m as [|[k0 l0] m IH]; cbn; [by intros [? ?]|].
  destruct (same_value_zero k0 k); cbn; [done|]. intros H. by rewrite IH.
Qed.

Lemma map_set_length_absent k l m :
  map_get k m = None -> length (map_set k l m) = S (length m).
Proof.
  induction m as [|[k0 l0] m IH]; cbn; [done|].
  destruct (same_value_zero k0 k); cbn; [done|]. intros H. by rewrite IH.
Qed.

Lemma map_set_length_le k l m : (length m <= length (map_set k l m))%nat.
Proof.
  induction m as [|[k0 l0] m IH]; cbn; [lia|].
  destruct (same_value_zero k0 k); cbn; lia.
Qed.

End map_more.

(** ** Beyond the claims: what a run of each handler is *)

Lemma purchase_stores P body w oid d :
  get_prop body "id" = Ok oid ->
  order_discordUserId body = Ok d -> truthy d = true ->
  returns (assignPremiumRole P d) true ->
  exists w',
    webhook_purchase P body w =
      (Ok (JsonResponse 200
             (VObj {[ "success" := VBool true;
                      "message" := VStr "Role assigned successfully" ]})), w')
    /\ subscriptions w' = map_set oid (length (heap w)) (subscriptions w)
    /\ heap w' =
         heap w ++ [ {[ "discordId" := d; "orderId" := oid;
                        "status" := VStr "active";
                        "createdAt" := VDate (clock P (clock_reads w)) ]} ]
    /\ clock_reads w' = S (clock_reads w).
Proof.
  intros Hoid Hid Hd Hgrant.
  unfold webhook_purchase. unfold_M. rewrite Hid, Hd. cbn.
  call_assign. rewrite Hoid. cbn.
  eexists. split; [reflexivity|]. by repeat split.
Qed.

Lemma cancellation_revokes P body w oid l :
  get_prop body "id" = Ok oid ->
  map_get oid (subscriptions w) = Some l ->
  returns (removePremiumRole P (field_of (heap w) l "discordId")) true ->
  exists w',
    webhook_cancellation P body w =
      (Ok (JsonResponse 200
             (VObj {[ "success" := VBool true;
                      "message" := VStr "Role removed successfully" ]})), w')
    /\ subscriptions w' = subscriptions w
    /\ heap w' =
         alter (<["cancelledAt" := VDate (clock P (clock_reads w))]>) l
           (alter (<["status" := VStr "cancelled"]>) l (heap w))
    /\ clock_reads w' = S (clock_reads w).
Proof.
  intros Hoid Hget Hrevoke. unfold webhook_cancellation. unfold_M.
  rewrite Hoid, Hget. cbn. call_remove. cbn.
  eexists. split; [reflexivity|]. by repeat split.
Qed.

Lemma cancellation_fails P body w oid l :
  get_prop body "id" = Ok oid ->
  map_get oid (subscriptions w) = Some l ->
  returns (removePremiumRole P (field_of (heap w) l "discordId")) false ->
  exists w',
    webhook_cancellation P body w =
      (Ok (JsonResponse 500 (VObj {[ "error" := VStr "Failed to remove role" ]})), w')
    /\ subscriptions w' = subscriptions w
    /\ heap w' = heap w
    /\ clock_reads w' = clock_reads w.
Proof.
  intros Hoid Hget Hrevoke. unfold webhook_cancellation. unfold_M.
  rewrite Hoid, Hget. cbn. call_remove. cbn.
  eexists. split; [reflexivity|]. by repeat split.
Qed.

Lemma callback_stores P (query : obj) w code tokenData userData :
  query !! "code" = Some code -> truthy code = true ->
  callback_settles P code tokenData userData ->
  exists w' discordId username,
    get_prop userData "id" = Ok discordId
    /\ get_prop userData "username" = Ok username
    /\ auth_discord_callback P query w =
         (Ok (RedirectResponse 302
                (template_of (WEBSITE_URL (env P)) +:+ "/checkout?session="
                   +:+ number_toString (clock P (clock_reads w)))), w')
    /\ subscriptions w' =
         map_set (VStr (number_toString (clock P (clock_reads w))))
           (length (heap w)) (subscriptions w)
    /\ heap w' =
         heap w ++ [ {[ "discordId" := discordId; "username" := username;
                        "timestamp" :=
                          VNum (number_of_ms (clock P (S (clock_reads w)))) ]} ]
    /\ clock_reads w' = S (S (clock_reads w)).
Proof.
  intros Hcode Htruthy (tr & tok & ur & Htr & Htd & Htok & Hur & Hud & Hnn).
  assert (exists i u, get_prop userData "id" = Ok i
                      /\ get_prop userData "username" = Ok u) as (i & u & Hi & Hu).
  { destruct userData; try discriminate Hnn; cbn; eauto. }
  exists (auth_discord_callback P query w).2, i, u.
  split; [done|]. split; [done|].
  unfold auth_discord_callback. rewrite Hcode. cbn. rewrite Htruthy. cbn.
  unfold_M. rewrite Htr. cbn. rewrite Htd. cbn. rewrite Htok. cbn.
  rewrite Hur. cbn. rewrite Hud. cbn. rewrite Hi. cbn. rewrite Hu. cbn.
  by repeat split.
Qed.

(** ** Beyond the claims: all five routes *)


(** Whatever the request, one run does one of three things to the store:
    it leaves the [Map] and the records alone; or it allocates one record
    (active, or without status) and sets one key to it; or it writes
    "cancelled" and a cancellation time into one record that a key refers
    to.  No route deletes an entry or writes any other field. *)
Theorem serve_store_step P r w : store_step w (serve P r w).2.
Proof.
  destruct r as [query|body|body|client_user|]; cbn [serve].
  - unfold auth_discord_callback.
    destruct (truthy _); cbn; [|by apply step_none].
    unfold_M.
    destruct (token_request P _) as [tokenResponse|]; cbn; [|by apply step_none].
    destruct (response_json tokenResponse) as [tokenData|]; cbn; [|by apply step_none].
    destruct (get_prop tokenData "access_token") as [token|]; cbn; [|by apply step_none].
    destruct (profile_request P token) as [userResponse|]; cbn; [|by apply step_none].
    destruct (response_json userResponse) as [userData|]; cbn; [|by apply step_none].
    destruct (get_prop userData "id"); cbn; [|by apply step_none].
    destruct (get_prop userData "username"); cbn; [|by apply step_none].
    eapply step_add; cbn; [reflexivity|reflexivity|by left|done].
  - unfold webhook_purchase. unfold_M.
    destruct (order_discordUserId body) as [d|]; cbn; [|by apply step_none].
    destruct (truthy d); cbn; [|by apply step_none].
    call_assign. destruct b; cbn; [|by apply step_none].
    destruct (get_prop body "id"); cbn; [|by apply step_none].
    eapply step_add; cbn; [reflexivity|reflexivity|by right|done].
  - unfold webhook_cancellation. unfold_M.
    destruct (get_prop body "id") as [oid|]; cbn; [|by apply step_none].
    destruct (map_get _ _) as [l|] eqn:Hget; cbn; [|by apply step_none].
    call_remove. destruct b; cbn; [|by apply step_none].
    eapply step_cancel; cbn; [exact Hget|reflexivity|reflexivity].
  - by apply step_none.
  - by apply step_none.
Qed.

(** *** What survives any number of requests *)

Lemma store_step_keeps_entries w w' k :
  store_step w w' ->
  (is_Some (map_get k (subscriptions w)) -> is_Some (map_get k (subscriptions w')))
  /\ (length (subscriptions w) <= length (subscriptions w'))%nat
  /\ (length (heap w) <= length (heap w'))%nat.
Proof.
  intros [Hm Hh|k' o Hm Hh _ _|k' l t _ Hm Hh]; rewrite Hm, Hh.
  - done.
  - split; [apply map_get_set_is_Some|].
    split; [apply map_set_length_le|]. rewrite length_app. lia.
  - by rewrite !length_alter.
Qed.

Lemma store_step_record w w' l (rec : obj) :
  store_step w w' -> heap w !! l = Some rec ->
  exists rec' : obj,
    heap w' !! l = Some rec'
    /\ (forall f, f ≠ "status" -> f ≠ "cancelledAt" -> rec' !! f = rec !! f)
    /\ (rec' !! "status" = rec !! "status"
        \/ rec' !! "status" = Some (VStr "cancelled")).
Proof.
  intros [_ Hh|k' o _ Hh _ _|k' l0 t _ _ Hh] Hrec; rewrite Hh.
  - exists rec. by repeat split; [|left].
  - exists rec. rewrite lookup_app_l by (by eapply lookup_lt_Some).
    by repeat split; [|left].
  - destruct (decide (l0 = l)) as [->|Hne].
    + eexists. split; [by apply lookup_write2|]. split.
      * intros f Hs Hc. by rewrite !lookup_insert_ne.
      * right. by rewrite lookup_insert_ne, lookup_insert_eq.
    + exists rec. rewrite lookup_write2_ne by done. by repeat split; [|left].
Qed.

(** Once a key is in the [Map], every later request finds it: after any
    number of requests of any kind the key is still present, and neither
    the number of entries nor the number of records has gone down.  There
    is no expiry and no eviction. *)
Theorem serves_never_forgets w w' k :
  serves w w' ->
  (is_Some (map_get k (subscriptions w)) -> is_Some (map_get k (subscriptions w')))
  /\ (length (subscriptions w) <= length (subscriptions w'))%nat
  /\ (length (heap w) <= length (heap w'))%nat.
Proof.
  induction 1 as [w|P r w w' _ (IHk & IHm & IHh)]; [done|].
  destruct (store_step_keeps_entries w' (serve P r w').2 k (serve_store_step P r w'))
    as (Hk & Hm & Hh).
  split; [auto|]. split; lia.
Qed.

(** A stored record keeps its [discordId], [orderId], [createdAt] and
    every field other than [status] and [cancelledAt] through any number
    of requests; its status either stays what it was or has become
    "cancelled", so a cancelled record is never set back to active. *)
Theorem serves_record_stable w w' l (rec : obj) :
  serves w w' -> heap w !! l = Some rec ->
  exists rec' : obj,
    heap w' !! l = Some rec'
    /\ (forall f, f ≠ "status" -> f ≠ "cancelledAt" -> rec' !! f = rec !! f)
    /\ (rec' !! "status" = rec !! "status"
        \/ rec' !! "status" = Some (VStr "cancelled"))
    /\ (rec !! "status" = Some (VStr "cancelled") ->
        rec' !! "status" = Some (VStr "cancelled")).
Proof.
  intros Hserves Hrec.
  induction Hserves as [w|P r w w' _ IH].
  - exists rec. repeat split; auto.
  - destruct (IH Hrec) as (rec1 & Hrec1 & Hsame1 & Hstatus1 & Hcancelled1).
    destruct (store_step_record w' _ l rec1 (serve_store_step P r w') Hrec1)
      as (rec2 & Hrec2 & Hsame2 & Hstatus2).
    exists rec2. split; [done|]. split; [|split].
    + intros f Hs Hc. by rewrite Hsame2, Hsame1.
    + destruct Hstatus2 as [-> | ->]; [done|by right].
    + intros Hc. destruct Hstatus2 as [-> | ->]; [auto|done].
Qed.

Lemma store_step_cancelled_iff w w' :
  store_step w w' ->
  Forall (fun rec : obj => rec !! "status" = Some (VStr "cancelled")
                           <-> is_Some (rec !! "cancelledAt")) (heap w) ->
  Forall (fun rec : obj => rec !! "status" = Some (VStr "cancelled")
                           <-> is_Some (rec !! "cancelledAt")) (heap w').
Proof.
  intros [_ Hh|k' o _ Hh Hs Hc|k' l0 t _ _ Hh] Hall; rewrite Hh.
  - done.
  - apply Forall_app. split; [done|]. constructor; [|done].
    rewrite Hc. split.
    + intros Hcancelled. destruct Hs as [Hs|Hs]; rewrite Hs in Hcancelled; discriminate.
    + by intros [? ?].
  - rewrite list_alter_alter_eq. apply Forall_alter; [done|].
    intros rec _ _. cbn.
    rewrite lookup_insert_eq, lookup_insert_ne, lookup_insert_eq by done.
    by split.
Qed.

(** In every world the server can reach from its start, through any
    sequence of requests on the five routes, a stored record has a
    cancellation time exactly when its status is "cancelled". *)
Theorem serves_cancelled_iff_timestamp w l (rec : obj) :
  serves initial_world w -> heap w !! l = Some rec ->
  rec !! "status" = Some (VStr "cancelled") <-> is_Some (rec !! "cancelledAt").
Proof.
  intros Hserves Hrec.
  assert (Hall : Forall (fun rec : obj =>
                           rec !! "status" = Some (VStr "cancelled")
                           <-> is_Some (rec !! "cancelledAt")) (heap w)).
  { clear Hrec. remember initial_world as w0 eqn:Hw0.
    induction Hserves as [w|P r w w' _ IH]; [subst; constructor|].
    eapply store_step_cancelled_iff; [apply serve_store_step|auto]. }
  rewrite Forall_lookup in Hall. by eapply Hall.
Qed.

(** ** Beyond the claims: how the handlers compose *)

(** Reads a field of a record written as a chain of field assignments. *)
Ltac lookup_field :=
  repeat (rewrite lookup_insert_ne by done);
  first [rewrite lookup_insert_eq | rewrite lookup_singleton_eq]; cbn; try done.

(** A purchase webhook for an order id that is already a key of the [Map]
    (a replay, or a purchase after a cancellation), with the grant
    succeeding, points the key to a new active record and leaves the
    number of entries as it was; the record the key referred to before
    stays in memory, unchanged and no longer reachable through that
    key. *)
Theorem purchase_replay P body w oid d l0 (rec0 : obj) :
  get_prop body "id" = Ok oid -> primitive oid = true ->
  order_discordUserId body = Ok d -> truthy d = true ->
  returns (assignPremiumRole P d) true ->
  map_get oid (subscriptions w) = Some l0 ->
  heap w !! l0 = Some rec0 ->
  let w' := (webhook_purchase P body w).2 in
  length (subscriptions w') = length (subscriptions w)
  /\ map_get oid (subscriptions w') = Some (length (heap w))
  /\ length (heap w) ≠ l0
  /\ field_of (heap w') (length (heap w)) "status" = VStr "active"
  /\ heap w' !! l0 = Some rec0.
Proof.
  intros Hoid Hprim Hid Hd Hgrant Hget Hrec0 w'. subst w'.
  destruct (purchase_stores P body w oid d Hoid Hid Hd Hgrant)
    as (w' & -> & Hm & Hh & _). cbn [snd].
  rewrite Hm, Hh. split; [by apply map_set_length_present|].
  split; [by apply map_get_set|].
  apply lookup_lt_Some in Hrec0 as Hlt.
  split; [lia|]. split; [by rewrite field_of_alloc|].
  by rewrite lookup_app_l.
Qed.

(** A successful purchase followed by a cancellation webhook with the
    same order id: the cancellation finds the record just written.  If
    the revoke for the buyer's id succeeds it answers 200 and the record
    under that order id is cancelled; if the revoke fails it answers 500
    and the record is still active.  This holds for an order id of any
    primitive value, [undefined] included: a purchase without an id is
    cancelled by a cancellation without an id. *)
Theorem purchase_then_cancellation P1 P2 body1 body2 w oid d :
  get_prop body1 "id" = Ok oid -> primitive oid = true ->
  order_discordUserId body1 = Ok d -> truthy d = true ->
  returns (assignPremiumRole P1 d) true ->
  get_prop body2 "id" = Ok oid ->
  let l := length (heap w) in
  let run := webhook_cancellation P2 body2 (webhook_purchase P1 body1 w).2 in
  (returns (removePremiumRole P2 d) true ->
   run.1 = Ok (JsonResponse 200
                 (VObj {[ "success" := VBool true;
                          "message" := VStr "Role removed successfully" ]}))
   /\ map_get oid (subscriptions run.2) = Some l
   /\ field_of (heap run.2) l "discordId" = d
   /\ field_of (heap run.2) l "status" = VStr "cancelled")
  /\ (returns (removePremiumRole P2 d) false ->
      run.1 = Ok (JsonResponse 500 (VObj {[ "error" := VStr "Failed to remove role" ]}))
      /\ map_get oid (subscriptions run.2) = Some l
      /\ field_of (heap run.2) l "status" = VStr "active").
Proof.
  intros Hoid1 Hprim Hid Hd Hgrant Hoid2 l run. subst run.
  destruct (purchase_stores P1 body1 w oid d Hoid1 Hid Hd Hgrant)
    as (w1 & -> & Hm1 & Hh1 & Hc1). cbn [snd].
  assert (Hget : map_get oid (subscriptions w1) = Some l).
  { rewrite Hm1. by apply map_get_set. }
  assert (Hdid : field_of (heap w1) l "discordId" = d).
  { rewrite Hh1. by rewrite field_of_alloc. }
  split; intros Hrevoke.
  - destruct (cancellation_revokes P2 body2 w1 oid l Hoid2 Hget)
      as (w2 & -> & Hm2 & Hh2 & _); [by rewrite Hdid|]. cbn [fst snd].
    split; [done|]. split; [by rewrite Hm2|].
    rewrite Hh2, Hh1. unfold field_of.
    erewrite !lookup_write2 by apply lookup_alloc. cbn.
    split; by lookup_field.
  - destruct (cancellation_fails P2 body2 w1 oid l Hoid2 Hget)
      as (w2 & -> & Hm2 & Hh2 & _); [by rewrite Hdid|]. cbn [fst snd].
    split; [done|]. split; [by rewrite Hm2|].
    rewrite Hh2, Hh1. by rewrite field_of_alloc.
Qed.

(** A cancellation whose revoke failed can be retried: the failed run
    leaves the record as it was, and a second delivery of the webhook
    whose revoke succeeds answers 200 and cancels the record. *)
Theorem cancellation_retry P1 P2 body w oid l (rec : obj) :
  get_prop body "id" = Ok oid ->
  map_get oid (subscriptions w) = Some l ->
  heap w !! l = Some rec ->
  returns (removePremiumRole P1 (default VUndef (rec !! "discordId"))) false ->
  returns (removePremiumRole P2 (default VUndef (rec !! "discordId"))) true ->
  let first := webhook_cancellation P1 body w in
  let second := webhook_cancellation P2 body first.2 in
  first.1 = Ok (JsonResponse 500 (VObj {[ "error" := VStr "Failed to remove role" ]}))
  /\ heap first.2 !! l = Some rec
  /\ second.1 = Ok (JsonResponse 200
                      (VObj {[ "success" := VBool true;
                               "message" := VStr "Role removed successfully" ]}))
  /\ field_of (heap second.2) l "status" = VStr "cancelled".
Proof.
  intros Hoid Hget Hrec Hfail Hok first second. subst first second.
  assert (Hdid : field_of (heap w) l "discordId" = default VUndef (rec !! "discordId")).
  { unfold field_of. by rewrite Hrec. }
  destruct (cancellation_fails P1 body w oid l Hoid Hget)
    as (w1 & -> & Hm1 & Hh1 & _); [by rewrite Hdid|]. cbn [fst snd].
  split; [done|]. split; [by rewrite Hh1|].
  destruct (cancellation_revokes P2 body w1 oid l Hoid)
    as (w2 & -> & Hm2 & Hh2 & _); [by rewrite Hm1|by rewrite Hh1, Hdid|].
  cbn [fst snd]. split; [done|].
  rewrite Hh2, Hh1. unfold field_of.
  erewrite lookup_write2 by done. cbn.
  by rewrite lookup_insert_ne, lookup_insert_eq.
Qed.


(** Session keys are clock readings.  When two OAuth callbacks succeed
    and the second reads the same clock value for its key as the first
    did, the second record replaces the first under that key: the [Map]
    gains no entry, the key leads to the second profile, and the first
    record is left in memory with no key of its own. *)
Theorem session_key_collision P1 P2 (q1 q2 : obj) w code1 code2
    tokenData1 userData1 tokenData2 userData2 discordId2 :
  q1 !! "code" = Some code1 -> truthy code1 = true ->
  callback_settles P1 code1 tokenData1 userData1 ->
  q2 !! "code" = Some code2 -> truthy code2 = true ->
  callback_settles P2 code2 tokenData2 userData2 ->
  get_prop userData2 "id" = Ok discordId2 ->
  clock P2 (S (S (clock_reads w))) = clock P1 (clock_reads w) ->
  let sid := VStr (number_toString (clock P1 (clock_reads w))) in
  let w1 := (auth_discord_callback P1 q1 w).2 in
  let w2 := (auth_discord_callback P2 q2 w1).2 in
  map_get sid (subscriptions w1) = Some (length (heap w))
  /\ map_get sid (subscriptions w2) = Some (S (length (heap w)))
  /\ length (subscriptions w2) = length (subscriptions w1)
  /\ field_of (heap w2) (S (length (heap w))) "discordId" = discordId2
  /\ heap w2 !! length (heap w) = heap w1 !! length (heap w).
Proof.
  intros Hc1 Ht1 Hs1 Hc2 Ht2 Hs2 Hid2 Hclock sid w1 w2. subst w1 w2.
  destruct (callback_stores P1 q1 w code1 _ _ Hc1 Ht1 Hs1)
    as (w1 & i1 & u1 & _ & _ & -> & Hm1 & Hh1 & Hr1). cbn [snd].
  destruct (callback_stores P2 q2 w1 code2 _ _ Hc2 Ht2 Hs2)
    as (w2 & i2 & u2 & Hi2 & _ & -> & Hm2 & Hh2 & _). cbn [snd].
  assert (i2 = discordId2) as -> by congruence.
  rewrite Hr1, Hclock in Hm2. fold sid in Hm1, Hm2.
  assert (Hlen : length (heap w1) = S (length (heap w))).
  { rewrite Hh1, length_app. cbn. lia. }
  assert (Hget1 : map_get sid (subscriptions w1) = Some (length (heap w))).
  { rewrite Hm1. by apply map_get_set. }
  split; [done|].
  rewrite Hm2, Hh2, Hlen.
  split; [by apply map_get_set|].
  split; [by apply map_set_length_present|].
  split.
  - rewrite <- Hlen. by rewrite field_of_alloc.
  - rewrite lookup_app_l; [done|]. lia.
Qed.

(** ** Beyond the claims: failures *)

(** An OAuth callback with a code for which the exchange does not go
    through (the token request or the profile request rejects, a body does
    not parse, or a payload is [null]) is answered with status 500
    "Authentication failed"; the [Map] and the records are unchanged and
    one error line is written.  When the token request itself rejects,
    the profile endpoint is not contacted. *)
Theorem callback_upstream_failure P (query : obj) w code :
  query !! "code" = Some code -> truthy code = true ->
  (forall tokenData userData, ~ callback_settles P code tokenData userData) ->
  exists w',
    auth_discord_callback P query w =
      (Ok (JsonResponse 500 (VObj {[ "error" := VStr "Authentication failed" ]})), w')
    /\ same_store w w'
    /\ console w' = console w ++ [LogError "OAuth error:"]
    /\ (forall e, token_request P code = Throw e ->
        trace w' = trace w ++ [EvTokenRequest code]).
Proof.
  intros Hcode Htruthy Hno.
  unfold auth_discord_callback. rewrite Hcode. cbn. rewrite Htruthy. cbn.
  unfold_M.
  destruct (token_request P code) as [tokenResponse|] eqn:Htr; cbn;
    [|eexists; split; [reflexivity|]; by repeat split].
  destruct (response_json tokenResponse) as [tokenData|] eqn:Htd; cbn;
    [|eexists; split; [reflexivity|]; by repeat split].
  destruct (get_prop tokenData "access_token") as [token|] eqn:Htok; cbn;
    [|eexists; split; [reflexivity|]; by repeat split].
  destruct (profile_request P token) as [userResponse|] eqn:Hur; cbn;
    [|eexists; split; [reflexivity|]; by repeat split].
  destruct (response_json userResponse) as [userData|] eqn:Hud; cbn;
    [|eexists; split; [reflexivity|]; by repeat split].
  destruct (nullish userData) eqn:Hnn.
  - destruct userData; try discriminate Hnn; cbn;
      (eexists; split; [reflexivity|]; by repeat split).
  - destruct (Hno tokenData userData). by exists tokenResponse, token, userResponse.
Qed.

(** A webhook whose body is [undefined] or [null] (nothing was parsed) is
    answered with status 500 "Webhook processing failed" by both webhook
    handlers: reading the first field throws inside the handler's [try].
    The store is unchanged and no call is made. *)
Theorem webhooks_unreadable_body P body w :
  nullish body = true ->
  (exists w',
     webhook_purchase P body w =
       (Ok (JsonResponse 500 (VObj {[ "error" := VStr "Webhook processing failed" ]})), w')
     /\ same_store w w' /\ trace w' = trace w)
  /\ (exists w',
        webhook_cancellation P body w =
          (Ok (JsonResponse 500 (VObj {[ "error" := VStr "Webhook processing failed" ]})), w')
        /\ same_store w w' /\ trace w' = trace w).
Proof.
  intros Hnull. split.
  - unfold webhook_purchase. unfold_M.
    destruct body; try discriminate Hnull; cbn;
      (eexists; split; [reflexivity|]; by repeat split).
  - unfold webhook_cancellation. unfold_M.
    destruct body; try discriminate Hnull; cbn;
      (eexists; split; [reflexivity|]; by repeat split).
Qed.

(** ** Beyond the claims: the role functions, step by step *)

Ltac no_such_event :=
  repeat match goal with
         | H : _ ∈ _ :: _ |- _ => apply elem_of_cons in H as [H|H]
         | H : _ ∈ [] |- _ => by apply elem_of_nil in H
         | H : @eq event _ _ |- _ => first [discriminate H | injection H as ? ?; subst]
         end.

(** The role functions stop at the first step that fails.  A grant calls
    [roles.add] only after the guild, the member (looked up by the given
    id) and the role were all fetched, and never calls [roles.remove]; a
    revoke calls [roles.remove] only after the same three lookups, and
    never calls [roles.add]. *)
Theorem role_change_needs_lookups P d w :
  (forall evs, trace (assignPremiumRole P d w).2 = trace w ++ evs ->
     (forall m r, EvRolesAdd m r ∈ evs ->
        exists g, guilds_fetch P (DISCORD_GUILD_ID (env P)) = Ok g
                  /\ members_fetch P g d = Ok m
                  /\ roles_fetch P g (PREMIUM_ROLE_ID (env P)) = Ok r)
     /\ (forall m r, EvRolesRemove m r ∉ evs))
  /\ (forall evs, trace (removePremiumRole P d w).2 = trace w ++ evs ->
        (forall m r, EvRolesRemove m r ∈ evs ->
           exists g, guilds_fetch P (DISCORD_GUILD_ID (env P)) = Ok g
                     /\ members_fetch P g d = Ok m
                     /\ roles_fetch P g (PREMIUM_ROLE_ID (env P)) = Ok r)
        /\ (forall m r, EvRolesAdd m r ∉ evs)).
Proof.
  split; intros evs.
  - unfold assignPremiumRole. unfold_M.
    role_cases P d roles_add; cbn; rewrite <- ?app_assoc; cbn;
      intros Hevs; apply app_inv_head in Hevs as <-;
      (split; [intros m' r' Hin|intros m' r' Hin]); no_such_event; eauto.
  - unfold removePremiumRole. unfold_M.
    role_cases P d roles_remove; cbn; rewrite <- ?app_assoc; cbn;
      intros Hevs; apply app_inv_head in Hevs as <-;
      (split; [intros m' r' Hin|intros m' r' Hin]); no_such_event; eauto.
Qed.

(** ** Beyond the claims: which identity id a purchase uses *)

(** For a purchase body that is an object: a truthy [discordUserId]
    inside an object-valued [customFields] is the id used, whatever the
    top level holds; when that nested id is missing or falsy, when
    [customFields] is missing, or when [customFields] is not an object
    (a string, a number, an array, [null]), the top-level [discordUserId]
    is used.  Reading the id never throws for such a body. *)
Theorem purchase_identity_resolution (o : obj) :
  let top := default VUndef (o !! "discordUserId") in
  (forall (cf : obj) n,
     o !! "customFields" = Some (VObj cf) -> cf !! "discordUserId" = Some n ->
     truthy n = true -> order_discordUserId (VObj o) = Ok n)
  /\ (forall cf : obj,
        o !! "customFields" = Some (VObj cf) ->
        truthy (default VUndef (cf !! "discordUserId")) = false ->
        order_discordUserId (VObj o) = Ok top)
  /\ (forall v,
        o !! "customFields" = Some v -> (forall cf, v ≠ VObj cf) ->
        order_discordUserId (VObj o) = Ok top)
  /\ (o !! "customFields" = None -> order_discordUserId (VObj o) = Ok top).
Proof.
  cbn zeta. unfold order_discordUserId, custom_field_identity. cbn.
  repeat split.
  - intros cf n -> Hn Ht. cbn. rewrite Hn. cbn. by rewrite Ht.
  - intros cf -> Hf. cbn. by rewrite Hf.
  - intros v -> Hv. destruct v; cbn; try done. by destruct (Hv props).
  - by intros ->.
Qed.

(** ** Beyond the claims: the authorization URL *)

Lemma hex_digits_unreserved c :
  uri_unreserved (hex_digit (Ascii.N_of_ascii c / 16)) = true
  /\ uri_unreserved (hex_digit (Ascii.N_of_ascii c mod 16)) = true.
Proof. destruct c as [[] [] [] [] [] [] [] []]; by vm_compute. Qed.

Lemma unescape_percent_encode c :
  unescape_byte (hex_digit (Ascii.N_of_ascii c / 16))
    (hex_digit (Ascii.N_of_ascii c mod 16)) = Some c.
Proof. destruct c as [[] [] [] [] [] [] [] []]; by vm_compute. Qed.

Lemma unreserved_not_percent c : uri_unreserved c = true -> Ascii.eqb c "%" = false.
Proof. destruct c as [[] [] [] [] [] [] [] []]; by vm_compute. Qed.

Lemma encodeURIComponent_chars s :
  Forall (fun c => uri_unreserved c = true \/ c = "%"%char)
    (String.list_ascii_of_string (encodeURIComponent s)).
Proof.
  induction s as [|c s IH]; cbn; [constructor|].
  destruct (uri_unreserved c) eqn:Hc; cbn.
  - constructor; [by left|done].
  - destruct (hex_digits_unreserved c) as [Hhi Hlo].
    constructor; [by right|]. constructor; [by left|]. by constructor; [left|].
Qed.

Lemma unescape_escape c t :
  unescape (percent_encode c +:+ t) =
    match unescape_byte (hex_digit (Ascii.N_of_ascii c / 16))
            (hex_digit (Ascii.N_of_ascii c mod 16)), unescape t with
    | Some byte, Some text => Some (String byte text)
    | _, _ => None
    end.
Proof. reflexivity. Qed.

Lemma unescape_encodeURIComponent s : unescape (encodeURIComponent s) = Some s.
Proof.
  induction s as [|c s IH]; [done|]. cbn [encodeURIComponent].
  destruct (uri_unreserved c) eqn:Hc.
  - cbn [unescape]. by rewrite (unreserved_not_percent c Hc), IH.
  - by rewrite unescape_escape, unescape_percent_encode, IH.
Qed.

(** The authorization URL route answers 200 in every world and with any
    configuration, and leaves the world untouched.  The redirect URI is
    placed in the URL escaped: what stands after [redirect_uri=] contains
    only letters, digits, [- _ . ! ~ * ' ( )] and [%], so none of the
    delimiters [& = ? # / : +] or a space; a redirect URI cannot add to or
    cut short the query string.  (The client id is inserted as it is.) *)
Theorem auth_discord_url P w :
  let encoded := encodeURIComponent (template_of (DISCORD_REDIRECT_URI (env P))) in
  auth_discord P w =
    (Ok (JsonResponse 200
           (VObj {[ "authUrl" :=
                      VStr ("https://discord.com/api/oauth2/authorize?client_id="
                              +:+ template_of (DISCORD_CLIENT_ID (env P))
                              +:+ "&redirect_uri=" +:+ encoded
                              +:+ "&response_type=code&scope=identify") ]})), w)
  /\ Forall (fun c => uri_unreserved c = true \/ c = "%"%char)
       (String.list_ascii_of_string encoded)
  /\ (forall c, c ∈ ["&"; "="; "?"; "#"; "/"; ":"; "+"; " "]%char ->
      c ∉ String.list_ascii_of_string encoded).
Proof.
  cbn zeta. split; [done|]. split; [apply encodeURIComponent_chars|].
  intros c Hc Hin.
  pose proof (encodeURIComponent_chars (template_of (DISCORD_REDIRECT_URI (env P))))
    as Hall.
  rewrite Forall_forall in Hall. specialize (Hall c Hin).
  repeat (apply elem_of_cons in Hc as [->|Hc];
          [by destruct Hall as [Hall|Hall]; vm_compute in Hall|]).
  by apply elem_of_nil in Hc.
Qed.

(** [encodeURIComponent] loses nothing: two texts with the same escaped
    form are the same text, so the configured redirect URI can be read
    back from the authorization URL. *)
Theorem encodeURIComponent_inj s1 s2 :
  encodeURIComponent s1 = encodeURIComponent s2 -> s1 = s2.
Proof.
  intros H. apply (f_equal unescape) in H.
  rewrite !unescape_encodeURIComponent in H. by injection H.
Qed.

(** ** Beyond the claims: the theorems at concrete inputs *)

Lemma serves_never_forgets_witness :
  is_Some (map_get (VStr "o1") (subscriptions Scenario.after_cancellation)).
Proof.
  apply (proj1 (serves_never_forgets Scenario.after_purchase
                  Scenario.after_cancellation (VStr "o1")
                  (serves_step Scenario.up
                     (POST_webhook_cancellation Scenario.cancellation_body)
                     _ _ (serves_refl _)))).
  eexists. reflexivity.
Defined.

Lemma serves_record_stable_witness :
  exists rec' : obj,
    heap Scenario.after_cancellation !! 0%nat = Some rec'
    /\ rec' !! "discordId" = Some (VStr "d1")
    /\ rec' !! "orderId" = Some (VStr "o1").
Proof.
  destruct (serves_record_stable Scenario.after_purchase
              Scenario.after_cancellation 0%nat
              {[ "discordId" := VStr "d1"; "orderId" := VStr "o1";
                 "status" := VStr "active";
                 "createdAt" := VDate 1730000000000 ]}
              (serves_step Scenario.up
                 (POST_webhook_cancellation Scenario.cancellation_body)
                 _ _ (serves_refl _)) eq_refl)
    as (rec' & Hrec' & Hsame & _).
  exists rec'. split; [exact Hrec'|].
  split; rewrite Hsame; done.
Defined.

Lemma serves_cancelled_iff_timestamp_witness :
  is_Some (({[ "discordId" := VStr "d1"; "orderId" := VStr "o1";
               "status" := VStr "cancelled";
               "createdAt" := VDate 1730000000000;
               "cancelledAt" := VDate 1730000000001 ]} : obj) !! "cancelledAt").
Proof.
  apply (serves_cancelled_iff_timestamp Scenario.after_cancellation 0%nat).
  - exact (serves_step Scenario.up
             (POST_webhook_cancellation Scenario.cancellation_body) _ _
             (serves_step Scenario.up
                (POST_webhook_purchase Scenario.purchase_body) _ _
                (serves_refl _))).
  - reflexivity.
  - reflexivity.
Defined.

Lemma purchase_replay_witness :
  map_get (VStr "o1")
    (subscriptions (webhook_purchase Scenario.up Scenario.purchase_body
                      Scenario.after_cancellation).2) = Some 1%nat
  /\ field_of (heap (webhook_purchase Scenario.up Scenario.purchase_body
                       Scenario.after_cancellation).2) 1%nat "status"
     = VStr "active"
  /\ field_of (heap (webhook_purchase Scenario.up Scenario.purchase_body
                       Scenario.after_cancellation).2) 0%nat "status"
     = VStr "cancelled".
Proof.
  destruct (purchase_replay Scenario.up Scenario.purchase_body
              Scenario.after_cancellation (VStr "o1") (VStr "d1") 0%nat
              {[ "discordId" := VStr "d1"; "orderId" := VStr "o1";
                 "status" := VStr "cancelled";
                 "createdAt" := VDate 1730000000000;
                 "cancelledAt" := VDate 1730000000001 ]})
    as (_ & Hget & _ & Hnew & Hold);
    [reflexivity | reflexivity | reflexivity | reflexivity
    | intros w; reflexivity | reflexivity | reflexivity |].
  split; [exact Hget|]. split; [exact Hnew|].
  unfold field_of. rewrite Hold. reflexivity.
Defined.

Lemma purchase_then_cancellation_witness :
  (webhook_cancellation Scenario.up Cases.cancellation_without_id
     (webhook_purchase Scenario.up Cases.purchase_without_id initial_world).2).1
  = Ok (JsonResponse 200
          (VObj {[ "success" := VBool true;
                   "message" := VStr "Role removed successfully" ]})).
Proof.
  destruct (purchase_then_cancellation Scenario.up Scenario.up
              Cases.purchase_without_id Cases.cancellation_without_id
              initial_world VUndef (VStr "d1"))
    as [Hsuccess _];
    [reflexivity | reflexivity | reflexivity | reflexivity
    | intros w; reflexivity | reflexivity |].
  destruct Hsuccess as [Hrun _]; [intros w; reflexivity|]. exact Hrun.
Defined.

Lemma cancellation_retry_witness :
  (webhook_cancellation Scenario.up Scenario.cancellation_body
     (webhook_cancellation Scenario.down Scenario.cancellation_body
        Scenario.after_purchase).2).1
  = Ok (JsonResponse 200
          (VObj {[ "success" := VBool true;
                   "message" := VStr "Role removed successfully" ]})).
Proof.
  destruct (cancellation_retry Scenario.down Scenario.up Scenario.cancellation_body
              Scenario.after_purchase (VStr "o1") 0%nat
              {[ "discordId" := VStr "d1"; "orderId" := VStr "o1";
                 "status" := VStr "active";
                 "createdAt" := VDate 1730000000000 ]})
    as (_ & _ & Hsecond & _);
    [reflexivity | reflexivity | reflexivity
    | intros w; reflexivity | intros w; reflexivity |].
  exact Hsecond.
Defined.


Lemma session_key_collision_witness :
  map_get (VStr "1730000000000")
    (subscriptions (auth_discord_callback Cases.up_again Scenario.callback_query
                      Cases.after_callback).2) = Some 1%nat
  /\ length (subscriptions (auth_discord_callback Cases.up_again
                              Scenario.callback_query Cases.after_callback).2)
     = 1%nat
  /\ field_of (heap (auth_discord_callback Cases.up_again Scenario.callback_query
                       Cases.after_callback).2) 1%nat "discordId"
     = VStr "d2".
Proof.
  destruct (session_key_collision Scenario.up Cases.up_again
              Scenario.callback_query Scenario.callback_query initial_world
              (VStr "abc") (VStr "abc")
              (VObj {[ "access_token" := VStr "tok" ]})
              (VObj {[ "id" := VStr "d1"; "username" := VStr "buyer" ]})
              (VObj {[ "access_token" := VStr "tok" ]})
              (VObj {[ "id" := VStr "d2"; "username" := VStr "other" ]})
              (VStr "d2"))
    as (_ & Hget & Hlen & Hid & _);
    [reflexivity | reflexivity | | reflexivity | reflexivity | | reflexivity
    | reflexivity |].
  - eexists _, _, _. repeat split; reflexivity.
  - eexists _, _, _. repeat split; reflexivity.
  - split; [exact Hget|].
    split; [etransitivity; [exact Hlen | reflexivity] | exact Hid].
Defined.

Lemma callback_upstream_failure_witness :
  exists w',
    auth_discord_callback Scenario.down Scenario.callback_query initial_world =
      (Ok (JsonResponse 500 (VObj {[ "error" := VStr "Authentication failed" ]})), w')
    /\ same_store initial_world w'
    /\ trace w' = [EvTokenRequest (VStr "abc")].
Proof.
  destruct (callback_upstream_failure Scenario.down Scenario.callback_query
              initial_world (VStr "abc"))
    as (w' & Hrun & Hsame & _ & Htrace); [reflexivity | reflexivity | |].
  - intros tokenData userData (tr & tok & ur & Htr & _). discriminate Htr.
  - exists w'. split; [exact Hrun|]. split; [exact Hsame|].
    exact (Htrace (Rejected "fetch failed") eq_refl).
Defined.

Lemma webhooks_unreadable_body_witness :
  exists w',
    webhook_purchase Scenario.up VUndef Scenario.after_purchase =
      (Ok (JsonResponse 500 (VObj {[ "error" := VStr "Webhook processing failed" ]})), w')
    /\ same_store Scenario.after_purchase w'.
Proof.
  destruct (proj1 (webhooks_unreadable_body Scenario.up VUndef
                     Scenario.after_purchase eq_refl))
    as (w' & Hrun & Hsame & _).
  exists w'. split; [exact Hrun | exact Hsame].
Defined.

Lemma role_change_needs_lookups_witness :
  exists g,
    guilds_fetch Scenario.up (Some "guild-1") = Ok g
    /\ members_fetch Scenario.up g (VStr "d1")
       = Ok {| member_id := "d1"; user_tag := "buyer#0001" |}
    /\ roles_fetch Scenario.up g (Some "role-9")
       = Ok (Some {| role_id := "role-9" |}).
Proof.
  destruct (proj1 (role_change_needs_lookups Scenario.up (VStr "d1") initial_world)
              [EvGuildsFetch (Some "guild-1");
               EvMembersFetch {| guild_id := "guild-1" |} (VStr "d1");
               EvRolesFetch {| guild_id := "guild-1" |} (Some "role-9");
               EvRolesAdd {| member_id := "d1"; user_tag := "buyer#0001" |}
                 (Some {| role_id := "role-9" |})]
              eq_refl) as [Hadd _].
  apply (Hadd {| member_id := "d1"; user_tag := "buyer#0001" |}
           (Some {| role_id := "role-9" |})).
  repeat constructor.
Defined.

Lemma purchase_identity_resolution_witness :
  order_discordUserId (VObj Cases.both_ids) = Ok (VStr "nested").
Proof.
  apply (proj1 (purchase_identity_resolution Cases.both_ids)
           {[ "discordUserId" := VStr "nested" ]} (VStr "nested"));
    reflexivity.
Defined.

Lemma auth_discord_url_witness :
  (auth_discord Scenario.up initial_world).1 =
    Ok (JsonResponse 200
          (VObj {[ "authUrl" :=
                     VStr "https://discord.com/api/oauth2/authorize?client_id=client&redirect_uri=https%3A%2F%2Fbot.example%2Fauth%2Fdiscord%2Fcallback&response_type=code&scope=identify" ]})).
Proof.
  rewrite (proj1 (auth_discord_url Scenario.up initial_world)). reflexivity.
Defined.

Lemma encodeURIComponent_inj_witness :
  encodeURIComponent "a/b" ≠ encodeURIComponent "a%2Fb".
Proof.
  intros H. apply encodeURIComponent_inj in H. discriminate H.
Defined.

(** ** Beyond the claims: one order does not disturb another *)

Section isolation.

Implicit Types (k : jsval) (l : loc) (m : js_map) (a b : string).

Lemma same_value_zero_string k a : same_value_zero k (VStr a) = true -> k = VStr a.
Proof.
  destruct k; cbn; try done. intros H. f_equal. by apply String.eqb_eq.
Qed.

Lemma map_get_set_other a b l m :
  a ≠ b -> map_get (VStr b) (map_set (VStr a) l m) = map_get (VStr b) m.
Proof.
  intros Hne.
  assert (Hab : String.eqb a b = false) by by apply String.eqb_neq.
  induction m as [|[k0 l0] m IH]; cbn; [by rewrite Hab|].
  destruct (same_value_zero k0 (VStr a)) eqn:Ea; cbn.
  - apply same_value_zero_string in Ea as ->. cbn. by rewrite Hab.
  - by rewrite IH.
Qed.

Lemma map_get_ref k l m : map_get k m = Some l -> l ∈ m.*2.
Proof.
  induction m as [|[k0 l0] m IH]; cbn; [done|].
  destruct (same_value_zero k0 k).
  - intros [= ->]. by left.
  - intros H. right. by apply IH.
Qed.

Lemma map_set_refs k l m x : x ∈ (map_set k l m).*2 -> x = l \/ x ∈ m.*2.
Proof.
  induction m as [|[k0 l0] m IH]; cbn.
  - intros H. apply elem_of_cons in H as [->|H]; [by left|by right].
  - destruct (same_value_zero k0 k); cbn; intros H;
      apply elem_of_cons in H as [->|H].
    + by left.
    + right. by right.
    + right. by left.
    + destruct (IH H) as [->|Hx]; [by left|right; by right].
Qed.

Lemma NoDup_map_set k l m :
  NoDup m.*2 -> l ∉ m.*2 -> NoDup (map_set k l m).*2.
Proof.
  induction m as [|[k0 l0] m IH]; cbn; intros Hnd Hl.
  - apply NoDup_singleton.
  - apply NoDup_cons in Hnd as [Hl0 Hnd].
    apply not_elem_of_cons in Hl as [Hne Hl].
    destruct (same_value_zero k0 k); cbn; apply NoDup_cons.
    + done.
    + split; [|by apply IH].
      intros Hin. apply map_set_refs in Hin as [->|Hin]; done.
Qed.

Lemma map_get_distinct a b la lb m :
  NoDup m.*2 -> a ≠ b ->
  map_get (VStr a) m = Some la -> map_get (VStr b) m = Some lb -> la ≠ lb.
Proof.
  intros Hnd Hne.
  assert (Hab : String.eqb a b = false) by by apply String.eqb_neq.
  assert (Hba : String.eqb b a = false) by (apply String.eqb_neq; congruence).
  induction m as [|[k0 l0] m IH]; cbn; [done|].
  apply NoDup_cons in Hnd as [Hl0 Hnd].
  destruct (same_value_zero k0 (VStr a)) eqn:Ea.
  - apply same_value_zero_string in Ea as ->. cbn. rewrite Hab.
    intros [= <-] Hb%map_get_ref. by intros ->.
  - destruct (same_value_zero k0 (VStr b)) eqn:Eb.
    + intros Ha%map_get_ref [= <-]. by intros ->.
    + by apply IH.
Qed.

End isolation.

(** A successful purchase for an order id that is a string changes
    nothing for the other order ids: every other string key leads where
    it led before, and every record that existed is as it was. *)
Theorem purchase_isolated P body w a d b :
  get_prop body "id" = Ok (VStr a) ->
  order_discordUserId body = Ok d -> truthy d = true ->
  returns (assignPremiumRole P d) true ->
  a ≠ b ->
  let w' := (webhook_purchase P body w).2 in
  map_get (VStr b) (subscriptions w') = map_get (VStr b) (subscriptions w)
  /\ (forall l, (l < length (heap w))%nat -> heap w' !! l = heap w !! l).
Proof.
  intros Hoid Hid Hd Hgrant Hne w'. subst w'.
  destruct (purchase_stores P body w (VStr a) d Hoid Hid Hd Hgrant)
    as (w' & -> & Hm & Hh & _). cbn [snd]. rewrite Hm, Hh.
  split; [by apply map_get_set_other|].
  intros l Hl. by rewrite lookup_app_l.
Qed.

Lemma store_step_refs w w' :
  store_step w w' ->
  NoDup (subscriptions w).*2
  /\ Forall (fun kl : jsval * loc => (kl.2 < length (heap w))%nat) (subscriptions w) ->
  NoDup (subscriptions w').*2
  /\ Forall (fun kl : jsval * loc => (kl.2 < length (heap w'))%nat) (subscriptions w').
Proof.
  intros [Hm Hh|k o Hm Hh _ _|k l t _ Hm Hh] [Hnd Hwf]; rewrite Hm, Hh.
  - done.
  - split.
    + apply NoDup_map_set; [done|]. intros Hin.
      apply list_elem_of_fmap in Hin as ([k0 l0] & Hl0 & Hin). cbn in Hl0.
      rewrite Forall_forall in Hwf. specialize (Hwf _ Hin). cbn in Hwf. lia.
    + apply (Forall_map_set (fun l => (l < length (heap w ++ [o]))%nat)).
      * eapply Forall_impl; [exact Hwf|]. intros [? ?] ?; cbn in *.
        rewrite length_app; cbn. lia.
      * rewrite length_app; cbn. lia.
  - by rewrite !length_alter.
Qed.

(** In every world the server can reach from its start, no record is
    referred to by two entries of the [Map], and every entry refers to a
    record that exists. *)
Theorem serves_no_shared_record w :
  serves initial_world w ->
  NoDup (subscriptions w).*2
  /\ Forall (fun kl : jsval * loc => (kl.2 < length (heap w))%nat) (subscriptions w).
Proof.
  remember initial_world as w0 eqn:Hw0.
  induction 1 as [w|P r w w' _ IH].
  - subst. split; constructor.
  - eapply store_step_refs; [apply serve_store_step|auto].
Qed.

(** In a reachable world, a cancellation webhook for one order id never
    touches the record of another: whatever the platform does and
    whatever the outcome, the record that a different string key leads to
    is exactly as before, and both keys lead where they led. *)
Theorem cancellation_isolated P body w a b la lb :
  serves initial_world w ->
  get_prop body "id" = Ok (VStr a) ->
  a ≠ b ->
  map_get (VStr a) (subscriptions w) = Some la ->
  map_get (VStr b) (subscriptions w) = Some lb ->
  let w' := (webhook_cancellation P body w).2 in
  subscriptions w' = subscriptions w
  /\ heap w' !! lb = heap w !! lb.
Proof.
  intros Hserves Hoid Hne Ha Hb w'. subst w'.
  destruct (serves_no_shared_record w Hserves) as [Hnd _].
  pose proof (map_get_distinct a b la lb _ Hnd Hne Ha Hb) as Hdistinct.
  unfold webhook_cancellation. unfold_M. rewrite Hoid, Ha. cbn.
  call_remove. destruct b0; cbn; [|done].
  split; [done|]. by apply lookup_write2_ne.
Qed.

Lemma purchase_isolated_witness :
  map_get (VStr "o1") (subscriptions Cases.two_orders) = Some 0%nat
  /\ heap Cases.two_orders !! 0%nat = heap Scenario.after_purchase !! 0%nat.
Proof.
  destruct (purchase_isolated Scenario.up Cases.second_purchase_body
              Scenario.after_purchase "o2" (VStr "d2") "o1")
    as [Hget Hheap];
    [reflexivity | reflexivity | reflexivity | intros w; reflexivity | done |].
  split.
  - etransitivity; [exact Hget | reflexivity].
  - apply Hheap. apply Nat.lt_0_1.
Defined.

Lemma serves_no_shared_record_witness :
  NoDup (subscriptions Cases.two_orders).*2.
Proof.
  apply (serves_no_shared_record Cases.two_orders).
  exact (serves_step Scenario.up
           (POST_webhook_purchase Cases.second_purchase_body) _ _
           (serves_step Scenario.up
              (POST_webhook_purchase Scenario.purchase_body) _ _
              (serves_refl _))).
Defined.

Lemma cancellation_isolated_witness :
  heap (webhook_cancellation Scenario.up Scenario.cancellation_body
          Cases.two_orders).2 !! 1%nat
  = heap Cases.two_orders !! 1%nat.
Proof.
  apply (cancellation_isolated Scenario.up Scenario.cancellation_body
           Cases.two_orders "o1" "o2" 0%nat 1%nat).
  - exact (serves_step Scenario.up
             (POST_webhook_purchase Cases.second_purchase_body) _ _
             (serves_step Scenario.up
                (POST_webhook_purchase Scenario.purchase_body) _ _
                (serves_refl _))).
  - reflexivity.
  - done.
  - reflexivity.
  - reflexivity.
Defined.
